(** * urlValidator.py: a shallow embedding of [URLValidator] and [main]

    The program fetches one page, checks the URL's format, looks at the
    status code and the TLS certificate, extracts a fixed set of on-page
    signals and adds up a heuristic score.

    Conventions of the embedding:
    - a Python [str] is a [string]; a character is a code point below 256,
      [len] is [String.length];
    - a Python [int] is a [Z], a Python [float] is a binary64 [float];
    - a [dict] with string keys is a [gmap string _]; subscripting a missing
      key raises [KeyError];
    - the libraries the program calls ([requests], [bs4], [validators],
      [ssl], the formatting built-ins) are fields of an environment [Env];
    - effects (network requests, parsing, printing, logging) are recorded
      in a trace threaded through a state-and-exception monad. *)

From Stdlib Require Import ZArith String Ascii List Bool Lia.
From Stdlib Require Import Floats.PrimFloat Numbers.Cyclic.Int63.Uint63.
From Stdlib Require Import DecimalString.
From stdpp Require Import base gmap strings.

Open Scope Z_scope.

(** ** Python values *)

Module Py.

(** [requests.exceptions]: the subclasses of [RequestException] the code
    tells apart; the string is [str(e)]. *)
Inductive request_error : Type :=
| Timeout (msg : string)
| TooManyRedirects (msg : string)
| OtherRequestException (msg : string).

(** Exceptions: those the modelled code raises itself, those of [requests]
    and any other [Exception] (as [ssl] raises). *)
Inductive exn : Type :=
| KeyError (key : string)
| TypeError (msg : string)
| RequestException (e : request_error)
| Exception (msg : string).

(** [str(e)] *)
Definition str_exn (e : exn) : string :=
  match e with
  | KeyError key => "'" +:+ key +:+ "'"
  | TypeError msg => msg
  | RequestException (Timeout msg) => msg
  | RequestException (TooManyRedirects msg) => msg
  | RequestException (OtherRequestException msg) => msg
  | Exception msg => msg
  end.

Inductive result (A : Type) : Type :=
| Ok (a : A)
| Raise (e : exn).
Arguments Ok {A} a.
Arguments Raise {A} e.

Definition rbind {A B} (r : result A) (k : A -> result B) : result B :=
  match r with
  | Ok a => k a
  | Raise e => Raise e
  end.

(** Truthiness, as tested by [if x:] and by [and]. *)
Class Truthy (A : Type) := truthy : A -> bool.

#[global] Instance truthy_bool : Truthy bool := fun b => b.
#[global] Instance truthy_str : Truthy string :=
  fun s => match s with EmptyString => false | String _ _ => true end.
#[global] Instance truthy_list {A} : Truthy (list A) :=
  fun l => match l with nil => false | _ :: _ => true end.
(** [None] is false; any other object falls back on its own truthiness. *)
#[global] Instance truthy_option {A} `{Truthy A} : Truthy (option A) :=
  fun o => match o with None => false | Some a => truthy a end.

(** [len(s)] *)
Definition len (s : string) : Z := Z.of_nat (String.length s).

(** [str(n)] for an [int]. *)
Definition str_int (n : Z) : string := NilZero.string_of_int (Z.to_int n).

(** [s.startswith(p)] *)
Fixpoint startswith (p s : string) : bool :=
  match p, s with
  | EmptyString, _ => true
  | String _ _, EmptyString => false
  | String a p', String b s' => if Ascii.eqb a b then startswith p' s' else false
  end.

(** [d[k]] on a dict. *)
Definition getitem {V} (d : gmap string V) (k : string) : result V :=
  match d !! k with
  | Some v => Ok v
  | None => Raise (KeyError k)
  end.

(** A number that is an [int] or a [float]. *)
Inductive number : Type :=
| PyInt (z : Z)
| PyFloat (x : float).

(** [a / b] on two ints small enough to be exact as floats (below 2^53,
    which every length of a string in memory is): the correctly rounded
    quotient. *)
Definition truediv (a b : Z) : float :=
  PrimFloat.div (PrimFloat.of_uint63 (Uint63.of_Z a))
                (PrimFloat.of_uint63 (Uint63.of_Z b)).

(** [n > 0.1]. Python compares an int with a float by exact value, and
    0.1 lies strictly between 0 and 1. *)
Definition gt_tenth (n : number) : bool :=
  match n with
  | PyInt z => 0 <? z
  | PyFloat x => PrimFloat.ltb 0x1.999999999999ap-4%float x
  end.

(** [x < k] for a float [x] and a small int literal [k]. *)
Definition lt_int (x : float) (k : Z) : bool :=
  PrimFloat.ltb x (PrimFloat.of_uint63 (Uint63.of_Z k)).

End Py.
Import Py.

(** ** The [re] fragment used by [_is_valid_url] *)

Module Re.

Inductive regex : Type :=
| Chr (c : ascii)
| Cat (r1 r2 : regex)
| Alt (r1 r2 : regex)
| Opt (r : regex).

(** [str.lower] on one character, for the comparison under [re.IGNORECASE].
    Only A-Z fold onto the ASCII letters a pattern can name. *)
Definition lower (c : ascii) : ascii :=
  let n := nat_of_ascii c in
  if (65 <=? n)%nat && (n <=? 90)%nat then ascii_of_nat (n + 32) else c.

Definition chr_eqb (ignorecase : bool) (p c : ascii) : bool :=
  if ignorecase then Ascii.eqb (lower p) (lower c) else Ascii.eqb p c.

(** Backtracking matcher: [k] is tried on every rest the regex can leave,
    in the order [re] explores them (left alternative first, greedy [?]). *)
Fixpoint run (ic : bool) (r : regex) (s : string) (k : string -> bool) : bool :=
  match r with
  | Chr p =>
      match s with
      | String c s' => if chr_eqb ic p c then k s' else false
      | EmptyString => false
      end
  | Cat r1 r2 => run ic r1 s (fun s' => run ic r2 s' k)
  | Alt r1 r2 => run ic r1 s k || run ic r2 s k
  | Opt r1 => run ic r1 s k || k s
  end.

(** A literal word, character by character. *)
Fixpoint lit (c : ascii) (w : string) : regex :=
  match w with
  | EmptyString => Chr c
  | String c' w' => Cat (Chr c) (lit c' w')
  end.

(** [re.match(r, s) is not None]: a match anchored at the start. *)
Definition matches (ic : bool) (r : regex) (s : string) : bool :=
  run ic r s (fun _ => true).

End Re.

(** ** Pure methods of [URLValidator] *)

(** [r'^(https?|ftp)://'] *)
Definition scheme_regex : Re.regex :=
  Re.Cat (Re.Alt (Re.Cat (Re.lit "h" "ttp") (Re.Opt (Re.Chr "s")))
                 (Re.lit "f" "tp"))
         (Re.lit ":" "//").

Definition _is_valid_url (url : string) : bool :=
  Re.matches true scheme_regex url.

Definition is_https (url : string) : bool :=
  startswith "https://" url.

(** [_seo_analysis]: the score is threaded through the rules in source
    order; [headings['h1']] and [headings['h2']] are dict lookups. *)
Definition _seo_analysis
    (title : option string) (description keywords : string)
    (headings : gmap string (list string)) (alt_tags : list string)
    (text_to_html_ratio : number) (page_load_time : float)
    (mobile_friendly : bool)
    (internal_links external_links : list string) : result Z :=
  let score := 0 in
  (* Title analysis *)
  let score :=
    if truthy title && (len (default "" title) <=? 60) then score + 10
    else if truthy title then score + 5
    else score in
  (* Meta description analysis *)
  let score :=
    if truthy description
       && ((150 <=? len description) && (len description <=? 160))
    then score + 10
    else if truthy description then score + 5
    else score in
  (* Keywords analysis *)
  let score := if truthy keywords then score + 10 else score in
  (* Headings analysis *)
  rbind (getitem headings "h1") (fun h1 =>
  let score := if truthy h1 then score + 10 else score in
  rbind (getitem headings "h2") (fun h2 =>
  let score := if truthy h2 then score + 5 else score in
  (* Internal and external links analysis *)
  let score := if truthy internal_links then score + 10 else score in
  let score := if truthy external_links then score + 10 else score in
  (* Alt tags for images *)
  let score := if truthy alt_tags then score + 10 else score in
  (* Text to HTML ratio *)
  let score := if gt_tenth text_to_html_ratio then score + 10 else score in
  (* Page load time analysis *)
  let score :=
    if lt_int page_load_time 3 then score + 10
    else if lt_int page_load_time 5 then score + 5
    else score in
  (* Mobile friendly analysis *)
  let score := if truthy mobile_friendly then score + 10 else score in
  Ok score)).


(** ** The libraries *)

(** A [bs4] element: its name, its attributes, [.string] and
    [.get_text(strip=True)]. *)
Record Tag : Type := {
  tag_name : string;
  tag_attrs : gmap string string;
  tag_string : option string;
  tag_get_text_strip : string
}.

(** A parsed document: its elements in document order and [.get_text()]. *)
Record Soup : Type := {
  soup_tags : list Tag;
  soup_get_text : string
}.

(** [requests.Response]: the fields the code reads; [elapsed] is
    [elapsed.total_seconds()]. *)
Record Response : Type := {
  status_code : Z;
  text : string;
  elapsed : float
}.

(** What one call of [requests.get] does: it returns a response, raises an
    exception of [requests.exceptions], or lets through an exception from
    outside that hierarchy (urllib3's [LocationParseError] for a host such
    as [a..b]); [msg] is its [str(e)]. *)
Inductive http_outcome : Type :=
| HttpResponse (r : Response)
| HttpRaises (e : request_error)
| HttpRaisesOther (msg : string).

Inductive tls_outcome : Type :=
| Certificate (pem : string)
| TlsRaises (msg : string).

(** [validators.url] returns [True] or a falsy failure object. *)
Inductive validation : Type :=
| ValidationTrue
| ValidationFailure.

#[global] Instance truthy_validation : Truthy validation :=
  fun v => match v with ValidationTrue => true | ValidationFailure => false end.

(** A [bs4] element is always true. *)
#[global] Instance truthy_tag : Truthy Tag := fun _ => true.

#[global] Instance truthy_sum {A B} `{Truthy A} `{Truthy B} : Truthy (A + B) :=
  fun x => match x with inl a => truthy a | inr b => truthy b end.

(** [a and b]: [a] when it is false, else [b]. *)
Definition py_and {A B} `{Truthy A} (a : A) (b : B) : A + B :=
  if truthy a then inr b else inl a.

(** What the world and the libraries answer. [http n url] is the outcome of
    the [n]-th call of [requests.get] of the run (counting from 0). *)
Record Env : Type := {
  http : nat -> string -> http_outcome;
  tls : string -> Z -> tls_outcome;
  html_parser : string -> Soup;
  validators_url : string -> validation;
  str_float : float -> string;
  str_list : list string -> string;
  str_dict : gmap string (list string) -> string
}.

(** ** Effects *)

(** The trace records calls: [HttpGet] is one call of [requests.get]
    (which may follow redirects and open connections of its own),
    [TlsConnect] one call of [ssl.get_server_certificate], [HtmlParse] one
    call of [BeautifulSoup]. *)
Inductive event : Type :=
| HttpGet (url : string) (timeout : Z)
| TlsConnect (host : string) (port : Z)
| HtmlParse (markup : string)
| Print (line : string)
| LogConfig (filename : string)
| LogInfo (msg : string).

Definition is_network (e : event) : bool :=
  match e with
  | HttpGet _ _ | TlsConnect _ _ => true
  | _ => false
  end.

Fixpoint count_gets (tr : list event) : nat :=
  match tr with
  | nil => 0%nat
  | HttpGet _ _ :: tr' => S (count_gets tr')
  | _ :: tr' => count_gets tr'
  end.

(** A computation reads the trace so far and returns a value or an
    exception together with the extended trace. *)
Definition M (A : Type) : Type := list event -> result A * list event.

Definition ret {A} (a : A) : M A := fun tr => (Ok a, tr).

Definition raise {A} (e : exn) : M A := fun tr => (Raise e, tr).

Definition bind {A B} (m : M A) (k : A -> M B) : M B :=
  fun tr =>
    match m tr with
    | (Ok a, tr') => k a tr'
    | (Raise e, tr') => (Raise e, tr')
    end.

Definition lift {A} (r : result A) : M A := fun tr => (r, tr).

Definition emit (e : event) : M unit := fun tr => (Ok tt, tr ++ [e]).

(** [try: m except ...: h e]; [h] returns [None] for an exception no
    clause matches. *)
Definition try_except {A} (m : M A) (h : exn -> option (M A)) : M A :=
  fun tr =>
    match m tr with
    | (Ok a, tr') => (Ok a, tr')
    | (Raise e, tr') =>
        match h e with
        | Some k => k tr'
        | None => (Raise e, tr')
        end
    end.

Declare Scope py_scope.
Delimit Scope py_scope with py.
Notation "'let*' x ':=' m 'in' k" := (bind m (fun x => k))
  (at level 10, x pattern, m at level 100, k at level 200) : py_scope.
Notation "m ';;' k" := (bind m (fun _ => k))
  (at level 100, k at level 200, right associativity) : py_scope.
Open Scope py_scope.

(** ** [bs4] queries *)

Module Bs4.

(** [soup.find_all(name)] *)
Definition find_all (soup : Soup) (name : string) : list Tag :=
  List.filter (fun t => String.eqb (tag_name t) name) (soup_tags soup).

(** [soup.find_all(name, attr=True)]: the elements carrying [attr]. *)
Definition find_all_with (soup : Soup) (name attr : string) : list Tag :=
  List.filter (fun t => bool_decide (is_Some (tag_attrs t !! attr)))
              (find_all soup name).

(** [soup.find(name, attrs={attr: value})]: the first such element. *)
Definition find (soup : Soup) (name attr value : string) : option Tag :=
  List.find (fun t => bool_decide (tag_attrs t !! attr = Some value))
            (find_all soup name).

(** [soup.title]: the first [title] element. *)
Definition title (soup : Soup) : option Tag :=
  List.find (fun _ => true) (find_all soup "title").

(** [[e(x) for x in l if c(x)]], with [c] and [e] allowed to raise; [body]
    returns [None] where the condition is false. *)
Fixpoint comprehension {A B} (body : A -> result (option B)) (l : list A)
  : result (list B) :=
  match l with
  | nil => Ok nil
  | x :: l' =>
      rbind (body x) (fun o =>
      rbind (comprehension body l') (fun r =>
      Ok (match o with Some b => b :: r | None => r end)))
  end.

End Bs4.

(** [s.replace(old, '')]: every non-overlapping occurrence of [old], left to
    right, is removed. [skip] counts the characters of the occurrence
    being removed that are still ahead. *)
Fixpoint remove_all (old : string) (skip : nat) (s : string) : string :=
  match s with
  | EmptyString => EmptyString
  | String c s' =>
      match skip with
      | S n => remove_all old n s'
      | O =>
          if truthy old && startswith old s
          then remove_all old (String.length old - 1) s'
          else String c (remove_all old 0 s')
      end
  end.

(** A status as [get_status_code] returns it: an int or an error label. *)
Inductive status : Type :=
| StatusInt (code : Z)
| StatusStr (label : string).

(** [status_code != 200] *)
Definition status_ne_200 (s : status) : bool :=
  match s with
  | StatusInt c => negb (c =? 200)
  | StatusStr _ => true
  end.

(** [isinstance(status_code, int)] *)
Definition isinstance_int (s : status) : bool :=
  match s with
  | StatusInt _ => true
  | StatusStr _ => false
  end.

(** [f"{status_code}"] *)
Definition str_status (s : status) : string :=
  match s with
  | StatusInt c => str_int c
  | StatusStr l => l
  end.

(** The dict [extract_page_info] returns. *)
Record PageInfo : Type := {
  title : option string;
  description : string;
  keywords : string;
  internal_links : list string;
  external_links : list string;
  headings : gmap string (list string);
  alt_tags : list string;
  text_to_html_ratio : number;
  page_load_time : float;
  mobile_friendly : bool
}.

(** What [extract_page_info] returns: the dict or an error string. *)
Inductive page_result : Type :=
| PageDict (info : PageInfo)
| PageStr (msg : string).

(** [page_info['key']]: a str cannot be subscripted by a str. The message
    is that of Python 3.12, the first version that reads the f-strings of
    [log_results] and [main]. *)
Definition subscript {A} (p : page_result) (key : PageInfo -> A) : M A :=
  match p with
  | PageDict info => ret (key info)
  | PageStr _ =>
      raise (TypeError "string indices must be integers, not 'str'")
  end.

Definition yes_no (b : bool) : string := if b then "Yes" else "No".

(** [f"{x}"] for [None] or a str. *)
Definition str_option (o : option string) : string :=
  match o with
  | Some s => s
  | None => "None"
  end.

(** ** [URLValidator] *)

Section URLValidator.

Variable env : Env.
(** [self.url] *)
Variable url : string.

(** [requests.get(u, timeout=t)] *)
Definition requests_get (u : string) (timeout : Z) : M Response :=
  fun tr =>
    let tr' := tr ++ [HttpGet u timeout] in
    match http env (count_gets tr) u with
    | HttpResponse r => (Ok r, tr')
    | HttpRaises e => (Raise (RequestException e), tr')
    | HttpRaisesOther msg => (Raise (Exception msg), tr')
    end.

(** [ssl.get_server_certificate((host, port))] *)
Definition get_server_certificate (host : string) (port : Z) : M string :=
  fun tr =>
    let tr' := tr ++ [TlsConnect host port] in
    match tls env host port with
    | Certificate pem => (Ok pem, tr')
    | TlsRaises msg => (Raise (Exception msg), tr')
    end.

(** [BeautifulSoup(content, 'html.parser')]; [None] is not markup. *)
Definition BeautifulSoup (content : option string) : M Soup :=
  match content with
  | Some markup => emit (HtmlParse markup) ;; ret (html_parser env markup)
  | None => raise (TypeError "object of type 'NoneType' has no len()")
  end.

Definition print (line : string) : M unit := emit (Print line).

Definition logging_info (msg : string) : M unit := emit (LogInfo msg).

Definition is_valid_format : bool + validation :=
  py_and (_is_valid_url url) (validators_url env url).

Definition get_status_code : M (status * option string) :=
  try_except
    (let* response := requests_get url 5 in
     ret (StatusInt (status_code response), Some (text response)))
    (fun e =>
       match e with
       | RequestException (Timeout _) =>
           Some (ret (StatusStr "Request Timeout", None))
       | RequestException (TooManyRedirects _) =>
           Some (ret (StatusStr "Too Many Redirects", None))
       | RequestException (OtherRequestException msg) =>
           Some (ret (StatusStr ("Request Exception: " +:+ msg), None))
       | _ => None
       end).

Definition _measure_page_load_time : M float :=
  try_except
    (let* response := requests_get url 5 in
     ret (elapsed response))
    (fun e =>
       match e with
       | RequestException _ => Some (ret infinity)
       | _ => None
       end).

Definition _is_mobile_friendly (soup : Soup) : bool :=
  let meta_viewport := Bs4.find soup "meta" "name" "viewport" in
  truthy meta_viewport.

(** [[h.get_text(strip=True) for h in soup.find_all(name)]] *)
Definition heading_texts (soup : Soup) (name : string) : list string :=
  List.map tag_get_text_strip (Bs4.find_all soup name).

Definition extract_page_info : M page_result :=
  let* (status_code, content) := get_status_code in
  if status_ne_200 status_code then
    ret (PageStr ("Error: Status code " +:+ str_status status_code))
  else
    let* soup := BeautifulSoup content in
    let title :=
      match Bs4.title soup with
      | Some t => tag_string t
      | None => Some "No Title"
      end in
    let description := Bs4.find soup "meta" "name" "description" in
    let* description_content :=
      match description with
      | Some d => lift (getitem (tag_attrs d) "content")
      | None => ret "No Description"
      end in
    let keywords := Bs4.find soup "meta" "name" "keywords" in
    let* keywords_content :=
      match keywords with
      | Some k => lift (getitem (tag_attrs k) "content")
      | None => ret "No Keywords"
      end in
    let* internal_links :=
      lift (Bs4.comprehension
              (fun a =>
                 rbind (getitem (tag_attrs a) "href") (fun h =>
                 if startswith "/" h
                 then rbind (getitem (tag_attrs a) "href") (fun h' => Ok (Some h'))
                 else Ok None))
              (Bs4.find_all_with soup "a" "href")) in
    let* external_links :=
      lift (Bs4.comprehension
              (fun a =>
                 rbind (getitem (tag_attrs a) "href") (fun h =>
                 if negb (startswith "/" h)
                 then rbind (getitem (tag_attrs a) "href") (fun h' => Ok (Some h'))
                 else Ok None))
              (Bs4.find_all_with soup "a" "href")) in
    let headings : gmap string (list string) :=
      <["h1" := heading_texts soup "h1"]>
      (<["h2" := heading_texts soup "h2"]>
      (<["h3" := heading_texts soup "h3"]>
      (<["h4" := heading_texts soup "h4"]>
      (<["h5" := heading_texts soup "h5"]>
      (<["h6" := heading_texts soup "h6"]> ∅))))) in
    let images := Bs4.find_all soup "img" in
    let* alt_tags :=
      lift (Bs4.comprehension
              (fun img =>
                 if bool_decide (is_Some (tag_attrs img !! "alt"))
                 then rbind (getitem (tag_attrs img) "alt") (fun a => Ok (Some a))
                 else Ok None)
              images) in
    let text := soup_get_text soup in
    let text_length := len text in
    let html_length := len (default "" content) in
    let text_to_html_ratio :=
      if 0 <? html_length then PyFloat (truediv text_length html_length)
      else PyInt 0 in
    let* page_load_time := _measure_page_load_time in
    let mobile_friendly := _is_mobile_friendly soup in
    ret (PageDict {|
      title := title;
      description := description_content;
      keywords := keywords_content;
      internal_links := internal_links;
      external_links := external_links;
      headings := headings;
      alt_tags := alt_tags;
      text_to_html_ratio := text_to_html_ratio;
      page_load_time := page_load_time;
      mobile_friendly := mobile_friendly
    |}).

Definition check_ssl_certificate : M string :=
  if negb (is_https url) then
    ret "No SSL Certificate for non-HTTPS URLs"
  else
    try_except
      (let* cert := get_server_certificate (remove_all "https://" 0 url) 443 in
       ret cert)
      (fun e => Some (ret ("SSL Certificate Error: " +:+ str_exn e))).

End URLValidator.

(** ** The script: [setup_logging], [log_results], [main] *)

Section Script.

Variable env : Env.

(** [f"{n}"] for the ratio. *)
Definition str_number (n : number) : string :=
  match n with
  | PyInt z => str_int z
  | PyFloat x => str_float env x
  end.

Definition setup_logging : M unit := emit (LogConfig "url_validator.log").

Definition log_results (url : string) (status_code : status)
    (https_check : bool) (ssl_info : string) (page_info : page_result)
  : M unit :=
  logging_info ("URL: " +:+ url) ;;
  logging_info ("Status Code: " +:+ str_status status_code) ;;
  logging_info ("HTTPS Check: " +:+ yes_no https_check) ;;
  logging_info ("SSL Certificate: " +:+ ssl_info) ;;
  let* v := subscript page_info title in
  logging_info ("Title: " +:+ str_option v) ;;
  let* v := subscript page_info description in
  logging_info ("Description: " +:+ v) ;;
  let* v := subscript page_info keywords in
  logging_info ("Keywords: " +:+ v) ;;
  let* v := subscript page_info internal_links in
  logging_info ("Internal Links: " +:+ str_list env v) ;;
  let* v := subscript page_info external_links in
  logging_info ("External Links: " +:+ str_list env v) ;;
  let* v := subscript page_info headings in
  logging_info ("Headings: " +:+ str_dict env v) ;;
  let* v := subscript page_info alt_tags in
  logging_info ("Alt Tags: " +:+ str_list env v) ;;
  let* v := subscript page_info text_to_html_ratio in
  logging_info ("Text to HTML Ratio: " +:+ str_number v) ;;
  let* v := subscript page_info page_load_time in
  logging_info ("Page Load Time: " +:+ str_float env v) ;;
  let* v := subscript page_info mobile_friendly in
  logging_info ("Mobile Friendly: " +:+ yes_no v).

Definition main (url : string) : M unit :=
  setup_logging ;;
  if truthy (is_valid_format env url) then
    let* (status_code, _) := get_status_code env url in
    let https_check := is_https url in
    let* page_info := extract_page_info env url in
    let* ssl_info := check_ssl_certificate env url in
    if isinstance_int status_code then
      print ("URL is valid and returned status code: "
             +:+ str_status status_code) ;;
      print ("HTTPS Check: " +:+ yes_no https_check) ;;
      print ("SSL Certificate: " +:+ ssl_info) ;;
      print "Page Info:" ;;
      let* v := subscript page_info title in
      print ("Title: " +:+ str_option v) ;;
      let* v := subscript page_info description in
      print ("Description: " +:+ v) ;;
      let* v := subscript page_info keywords in
      print ("Keywords: " +:+ v) ;;
      let* v := subscript page_info internal_links in
      print ("Internal Links: " +:+ str_list env v) ;;
      let* v := subscript page_info external_links in
      print ("External Links: " +:+ str_list env v) ;;
      let* v := subscript page_info headings in
      print ("Headings: " +:+ str_dict env v) ;;
      let* v := subscript page_info alt_tags in
      print ("Alt Tags: " +:+ str_list env v) ;;
      let* v := subscript page_info text_to_html_ratio in
      print ("Text to HTML Ratio: " +:+ str_number v) ;;
      let* v := subscript page_info page_load_time in
      print ("Page Load Time: " +:+ str_float env v) ;;
      let* v := subscript page_info mobile_friendly in
      print ("Mobile Friendly: " +:+ yes_no v) ;;
      let* a_title := subscript page_info title in
      let* a_description := subscript page_info description in
      let* a_keywords := subscript page_info keywords in
      let* a_headings := subscript page_info headings in
      let* a_alt_tags := subscript page_info alt_tags in
      let* a_ratio := subscript page_info text_to_html_ratio in
      let* a_load_time := subscript page_info page_load_time in
      let* a_mobile := subscript page_info mobile_friendly in
      let* a_internal := subscript page_info internal_links in
      let* a_external := subscript page_info external_links in
      let* seo_score :=
        lift (_seo_analysis a_title a_description a_keywords a_headings
                a_alt_tags a_ratio a_load_time a_mobile a_internal
                a_external) in
      print ("SEO Score: " +:+ str_int seo_score) ;;
      log_results url status_code https_check ssl_info page_info
    else
      print ("Error: " +:+ str_status status_code)
  else
    print "URL format is invalid.".

End Script.

(** ** A concrete world for examples *)

Module Sample.

Definition meta (name : string) (content : option string) : Tag :=
  {| tag_name := "meta";
     tag_attrs :=
       match content with
       | Some c => <["name" := name]> (<["content" := c]> ∅)
       | None => <["name" := name]> ∅
       end;
     tag_string := None;
     tag_get_text_strip := "" |}.

Definition element (name : string) (s : string) : Tag :=
  {| tag_name := name; tag_attrs := ∅; tag_string := Some s;
     tag_get_text_strip := s |}.

(** [<title>Home</title>] *)
Definition home_page : Soup :=
  {| soup_tags := [element "title" "Home"]; soup_get_text := "Home" |}.

(** [<title>Home</title><meta name='description'>]: the description
    element carries no [content]. *)
Definition bare_meta_page : Soup :=
  {| soup_tags := [element "title" "Home"; meta "description" None];
     soup_get_text := "Home" |}.

Definition ok_response (body : string) : http_outcome :=
  HttpResponse {| status_code := 200; text := body; elapsed := 0.5 |}.

(** A page with every signal [_seo_analysis] rewards. *)
Definition description_155 : string :=
  string_of_list_ascii (repeat "d"%char 155).

Definition best_headings : gmap string (list string) :=
  <["h1" := ["Welcome"]]> (<["h2" := ["About"]]> ∅).

(** A world in which every GET answers [outcomes n] and every page parses
    to [soup]. *)
Definition world (outcomes : nat -> http_outcome) (soup : Soup) : Env :=
  {| http := fun n _ => outcomes n;
     tls := fun _ _ => TlsRaises "handshake failure";
     html_parser := fun _ => soup;
     validators_url := fun _ => ValidationTrue;
     str_float := fun _ => "<float>";
     str_list := fun l => "[" +:+ String.concat ", " l +:+ "]";
     str_dict := fun _ => "<dict>" |}.

End Sample.

(** Worlds the properties are tried on. *)
Module Runs.

Import Sample.

Definition url : string := "https://example.com".

Definition body : string := "<title>Home</title>".

(** Every request times out. *)
Definition offline : Env :=
  world (fun _ => HttpRaises (Timeout "timed out")) home_page.

(** Every request is answered with the home page. *)
Definition online : Env := world (fun _ => ok_response body) home_page.

(** The first request is answered, the later ones time out. *)
Definition flaky : Env :=
  world (fun n => match n with
                  | O => ok_response body
                  | S _ => HttpRaises (Timeout "timed out")
                  end)
        home_page.

(** Every call of [requests.get] lets a urllib3 exception through. *)
Definition unparsable : Env :=
  world (fun _ => HttpRaisesOther
                    "Failed to parse: 'a..b', label empty or too long")
        home_page.

(** The first request is answered, the later calls let an exception
    through (the page now redirects to a host urllib3 refuses). *)
Definition redirected : Env :=
  world (fun n => match n with
                  | O => ok_response body
                  | S _ => HttpRaisesOther
                             "Failed to parse: 'a..b', label empty or too long"
                  end)
        home_page.

(** Every request is answered with a page whose description element has
    no [content]. *)
Definition bare_meta : Env :=
  world (fun _ => ok_response "<title>Home</title><meta name='description'>")
        bare_meta_page.

End Runs.

(** ** Vocabulary of the properties *)

(** [strip_prefix_ci p s]: what is left of [s] after the prefix [p], read
    without regard to case; [None] when [s] does not begin with [p]. *)
Fixpoint strip_prefix_ci (p s : string) : option string :=
  match p with
  | EmptyString => Some s
  | String a p' =>
      match s with
      | EmptyString => None
      | String b s' =>
          if Ascii.eqb (Re.lower a) (Re.lower b) then strip_prefix_ci p' s'
          else None
      end
  end.

Definition iprefix (p s : string) : bool :=
  match strip_prefix_ci p s with
  | Some _ => true
  | None => false
  end.

(** The scheme prefixes in the words of the specification: [http://],
    [https://] or [ftp://], case-insensitively. *)
Definition scheme_prefix (url : string) : bool :=
  iprefix "http://" url || iprefix "https://" url || iprefix "ftp://" url.

(** The points each rule of [_seo_analysis] awards. *)
Module Points.

Definition of_title (title : option string) : Z :=
  if truthy title && (len (default "" title) <=? 60) then 10
  else if truthy title then 5 else 0.

Definition of_description (description : string) : Z :=
  if truthy description
     && ((150 <=? len description) && (len description <=? 160))
  then 10
  else if truthy description then 5 else 0.

Definition of_keywords (keywords : string) : Z :=
  if truthy keywords then 10 else 0.

Definition of_h1 (h1 : list string) : Z := if truthy h1 then 10 else 0.

Definition of_h2 (h2 : list string) : Z := if truthy h2 then 5 else 0.

Definition of_links (links : list string) : Z :=
  if truthy links then 10 else 0.

Definition of_alt_tags (alt_tags : list string) : Z :=
  if truthy alt_tags then 10 else 0.

Definition of_ratio (ratio : number) : Z :=
  if gt_tenth ratio then 10 else 0.

Definition of_load_time (t : float) : Z :=
  if lt_int t 3 then 10 else if lt_int t 5 then 5 else 0.

Definition of_mobile (mobile_friendly : bool) : Z :=
  if truthy mobile_friendly then 10 else 0.

(** Every rule awards 0, 5 or 10 points: [5 * k] with [k] at most 2. *)
Definition award (bound points : Z) : Prop :=
  exists k, 0 <= k <= bound /\ points = 5 * k.

End Points.

(** The combination of signals the specification calls the maximum. *)
Record best_signals (title : option string) (description keywords : string)
    (h1 h2 alt_tags : list string) (ratio : number) (load_time : float)
    (mobile_friendly : bool) (internal_links external_links : list string)
  : Prop := {
  best_title : exists t, title = Some t /\ t <> "" /\ len t <= 60;
  best_description : len description = 155;
  best_keywords : keywords <> "";
  best_h1 : h1 <> [];
  best_h2 : h2 <> [];
  best_internal : internal_links <> [];
  best_external : external_links <> [];
  best_alt : alt_tags <> [];
  best_ratio : ratio = PyFloat 0x1.999999999999ap-3%float;
  best_load_time : load_time = 2%float;
  best_mobile : mobile_friendly = true
}.

(** The signals of a page, in the words of the specification. *)
Module Signals.

(** The [href] of every anchor that has one, in document order. *)
Definition hrefs (soup : Soup) : list string :=
  omap (fun a => tag_attrs a !! "href") (Bs4.find_all soup "a").

(** The [alt] of every image that has one, in document order. *)
Definition alts (soup : Soup) : list string :=
  omap (fun img => tag_attrs img !! "alt") (Bs4.find_all soup "img").

(** The [content] of the first [<meta name=...>], else the default; a
    [KeyError] when that element has no [content]. *)
Definition meta_content (soup : Soup) (name dflt : string) : result string :=
  match Bs4.find soup "meta" "name" name with
  | Some m => getitem (tag_attrs m) "content"
  | None => Ok dflt
  end.

Definition page_title (soup : Soup) : option string :=
  match Bs4.title soup with
  | Some t => tag_string t
  | None => Some "No Title"
  end.

Definition page_headings (soup : Soup) : gmap string (list string) :=
  <["h1" := heading_texts soup "h1"]>
  (<["h2" := heading_texts soup "h2"]>
  (<["h3" := heading_texts soup "h3"]>
  (<["h4" := heading_texts soup "h4"]>
  (<["h5" := heading_texts soup "h5"]>
  (<["h6" := heading_texts soup "h6"]> ∅))))).

(** The ratio for a visible text of length [t] and a body of length [h]. *)
Definition ratio (t h : Z) : number :=
  if 0 <? h then PyFloat (truediv t h) else PyInt 0.

(** The call of [requests.get] returns or raises an exception that the
    [except] clauses of the code catch. *)
Definition caught (o : http_outcome) : bool :=
  match o with
  | HttpResponse _ | HttpRaises _ => true
  | HttpRaisesOther _ => false
  end.

(** What [_measure_page_load_time] makes of the outcome of its request. *)
Definition load_time (o : http_outcome) : result float :=
  match o with
  | HttpResponse r => Ok (elapsed r)
  | HttpRaises _ => Ok infinity
  | HttpRaisesOther msg => Raise (Exception msg)
  end.

(** The dict for a body [markup] parsed to [soup], with the description
    [d], the keywords [k] and the load time [t]. *)
Definition page (soup : Soup) (markup d k : string) (t : float)
  : PageInfo :=
  {| title := page_title soup;
     description := d;
     keywords := k;
     internal_links := List.filter (startswith "/") (hrefs soup);
     external_links :=
       List.filter (fun h => negb (startswith "/" h)) (hrefs soup);
     headings := page_headings soup;
     alt_tags := alts soup;
     text_to_html_ratio := ratio (len (soup_get_text soup)) (len markup);
     page_load_time := t;
     mobile_friendly := _is_mobile_friendly soup |}.

(** The label [get_status_code] returns for an exception of [requests]. *)
Definition label (e : request_error) : string :=
  match e with
  | Timeout _ => "Request Timeout"
  | TooManyRedirects _ => "Too Many Redirects"
  | OtherRequestException description =>
      "Request Exception: " +:+ description
  end.

(** What [get_status_code] makes of the outcome of its request. *)
Definition fetched (o : http_outcome) : result (status * option string) :=
  match o with
  | HttpResponse r => Ok (StatusInt (status_code r), Some (text r))
  | HttpRaises e => Ok (StatusStr (label e), None)
  | HttpRaisesOther msg => Raise (Exception msg)
  end.

(** What [extract_page_info] returns and the events it adds, when its own
    request is the [n]-th of the run. *)
Definition extraction (env : Env) (url : string) (n : nat)
  : result page_result * list event :=
  match http env n url with
  | HttpResponse r =>
      if status_code r =? 200 then
        let soup := html_parser env (text r) in
        match meta_content soup "description" "No Description",
              meta_content soup "keywords" "No Keywords" with
        | Ok d, Ok k =>
            (match load_time (http env (S n) url) with
             | Ok t => Ok (PageDict (page soup (text r) d k t))
             | Raise e => Raise e
             end,
             [HttpGet url 5; HtmlParse (text r); HttpGet url 5])
        | Raise e, _ | Ok _, Raise e =>
            (Raise e, [HttpGet url 5; HtmlParse (text r)])
        end
      else
        (Ok (PageStr ("Error: Status code " +:+ str_int (status_code r))),
         [HttpGet url 5])
  | HttpRaises e =>
      (Ok (PageStr ("Error: Status code " +:+ label e)), [HttpGet url 5])
  | HttpRaisesOther msg => (Raise (Exception msg), [HttpGet url 5])
  end.

(** The request is answered with a 200 page. *)
Definition is_ok_200 (o : http_outcome) : bool :=
  match o with
  | HttpResponse r => status_code r =? 200
  | HttpRaises _ | HttpRaisesOther _ => false
  end.

(** What [check_ssl_certificate] makes of the handshake's outcome. *)
Definition ssl_info (o : tls_outcome) : string :=
  match o with
  | Certificate pem => pem
  | TlsRaises msg => "SSL Certificate Error: " +:+ msg
  end.

(** The score [main] computes from the dict. *)
Definition score (info : PageInfo) : result Z :=
  _seo_analysis (title info) (description info) (keywords info)
    (headings info) (alt_tags info) (text_to_html_ratio info)
    (page_load_time info) (mobile_friendly info) (internal_links info)
    (external_links info).

(** The dict with other keywords. *)
Definition with_keywords (info : PageInfo) (k : string) : PageInfo :=
  {| title := title info;
     description := description info;
     keywords := k;
     internal_links := internal_links info;
     external_links := external_links info;
     headings := headings info;
     alt_tags := alt_tags info;
     text_to_html_ratio := text_to_html_ratio info;
     page_load_time := page_load_time info;
     mobile_friendly := mobile_friendly info |}.

End Signals.

(** The whole run of [main], in closed form. *)
Module Report.

Import Signals.

(** The host [check_ssl_certificate] connects to: the URL with every
    [https://] taken out. *)
Definition host (url : string) : string := remove_all "https://" 0 url.

Definition certificate_events (url : string) : list event :=
  if is_https url then [TlsConnect (host url) 443] else [].

Definition certificate_text (env : Env) (url : string) : string :=
  if is_https url then ssl_info (tls env (host url) 443)
  else "No SSL Certificate for non-HTTPS URLs".

(** The ten lines on the fields of the dict, the same on stdout and in the
    log. *)
Definition field_lines (env : Env) (info : PageInfo) : list string :=
  ["Title: " +:+ str_option (title info);
   "Description: " +:+ description info;
   "Keywords: " +:+ keywords info;
   "Internal Links: " +:+ str_list env (internal_links info);
   "External Links: " +:+ str_list env (external_links info);
   "Headings: " +:+ str_dict env (headings info);
   "Alt Tags: " +:+ str_list env (alt_tags info);
   "Text to HTML Ratio: " +:+ str_number env (text_to_html_ratio info);
   "Page Load Time: " +:+ str_float env (page_load_time info);
   "Mobile Friendly: " +:+ yes_no (mobile_friendly info)].

(** The lines printed before the fields. *)
Definition head_lines (env : Env) (url : string) (st : status)
  : list string :=
  ["URL is valid and returned status code: " +:+ str_status st;
   "HTTPS Check: " +:+ yes_no (is_https url);
   "SSL Certificate: " +:+ certificate_text env url;
   "Page Info:"].

(** The lines logged before the fields. *)
Definition log_head (env : Env) (url : string) (st : status) : list string :=
  ["URL: " +:+ url;
   "Status Code: " +:+ str_status st;
   "HTTPS Check: " +:+ yes_no (is_https url);
   "SSL Certificate: " +:+ certificate_text env url].

(** The result of [main] and the events it adds, when [n] requests have
    been sent before. *)
Definition run (env : Env) (url : string) (n : nat)
  : result unit * list event :=
  if truthy (is_valid_format env url) then
    match fetched (http env n url) with
    | Raise e => (Raise e, [LogConfig "url_validator.log"; HttpGet url 5])
    | Ok (st, _) =>
    let before := [LogConfig "url_validator.log"; HttpGet url 5]
                  ++ snd (extraction env url (S n)) in
    match fst (extraction env url (S n)) with
    | Raise e => (Raise e, before)
    | Ok page_info =>
        let checked := before ++ certificate_events url in
        if isinstance_int st then
          match page_info with
          | PageStr _ =>
              (Raise (TypeError "string indices must be integers, not 'str'"),
               checked ++ List.map Print (head_lines env url st))
          | PageDict info =>
              let shown := checked
                           ++ List.map Print (head_lines env url st)
                           ++ List.map Print (field_lines env info) in
              match score info with
              | Raise e => (Raise e, shown)
              | Ok s =>
                  (Ok tt,
                   shown ++ [Print ("SEO Score: " +:+ str_int s)]
                   ++ List.map LogInfo (log_head env url st)
                   ++ List.map LogInfo (field_lines env info))
              end
          end
        else (Ok tt, checked ++ [Print ("Error: " +:+ str_status st)])
    end
    end
  else
    (Ok tt, [LogConfig "url_validator.log"; Print "URL format is invalid."]).

End Report.

(** Readings of a trace and of a string, for the properties of the run. *)
Module Trace.




(** The events a computation adds to the trace [tr]. *)
Definition added {A} (m : M A) (tr : list event) : list event :=
  drop (length tr) (snd (m tr)).

(** [old in s] *)
Fixpoint contains (old s : string) : bool :=
  match s with
  | EmptyString => startswith old s
  | String _ s' => startswith old s || contains old s'
  end.

(** [s.lower()], on the letters A-Z. *)
Fixpoint lower_str (s : string) : string :=
  match s with
  | EmptyString => EmptyString
  | String c s' => String (Re.lower c) (lower_str s')
  end.

End Trace.

(** A page with anchors, images, headings and meta elements, and a world
    that serves it. *)
Module Gallery.

Definition tag (name : string) (attrs : list (string * string))
    (s : string) : Tag :=
  {| tag_name := name;
     tag_attrs := list_to_map attrs;
     tag_string := Some s;
     tag_get_text_strip := s |}.

(** [<title>Shop</title><meta name='description' content='A shop'>
    <meta name='viewport' content='width=device-width'><h1>Shop</h1>
    <h3>Hours</h3><a href='/about'>About</a><a>Top</a>
    <a href='https://example.org/'>Partner</a><a href='/cart'>Cart</a>
    <img src='a.png' alt=''><img src='b.png'>] *)
Definition shop_page : Soup :=
  {| soup_tags :=
       [tag "title" [] "Shop";
        tag "meta" [("name", "description"); ("content", "A shop")] "";
        tag "meta" [("name", "viewport");
                    ("content", "width=device-width")] "";
        tag "h1" [] "Shop";
        tag "h3" [] "Hours";
        tag "a" [("href", "/about")] "About";
        tag "a" [] "Top";
        tag "a" [("href", "https://example.org/")] "Partner";
        tag "a" [("href", "/cart")] "Cart";
        tag "img" [("src", "a.png"); ("alt", "")] "";
        tag "img" [("src", "b.png")] ""];
     soup_get_text := "ShopShopHoursAboutTopPartnerCart" |}.

Definition shop_response : Response :=
  {| status_code := 200; text := "<title>Shop</title>..."; elapsed := 0.25 |}.

(** Every request is answered with the shop page. *)
Definition shop : Env :=
  Sample.world (fun _ => HttpResponse shop_response) shop_page.

(** The dict of the shop page. *)
Definition shop_info : PageInfo :=
  Signals.page shop_page (text shop_response) "A shop" "No Keywords"
    (elapsed shop_response).

Definition shop_trace : list event :=
  [HttpGet Runs.url 5; HtmlParse (text shop_response); HttpGet Runs.url 5].

(** A 200 response with an empty body, parsed to an empty document. *)
Definition empty_response : Response :=
  {| status_code := 200; text := ""; elapsed := 0.25 |}.

Definition blank : Env :=
  Sample.world (fun _ => HttpResponse empty_response)
    {| soup_tags := []; soup_get_text := "" |}.

End Gallery.

(** Dicts that differ in one field. *)
Module Variants.

Definition with_title (info : PageInfo) (t : option string) : PageInfo :=
  {| title := t;
     description := description info;
     keywords := keywords info;
     internal_links := internal_links info;
     external_links := external_links info;
     headings := headings info;
     alt_tags := alt_tags info;
     text_to_html_ratio := text_to_html_ratio info;
     page_load_time := page_load_time info;
     mobile_friendly := mobile_friendly info |}.

(** [<title><b>Shop</b></title>]: a title element whose [.string] is
    [None]. *)
Definition nested_title_page : Soup :=
  {| soup_tags :=
       [{| tag_name := "title"; tag_attrs := ∅; tag_string := None;
           tag_get_text_strip := "Shop" |}];
     soup_get_text := "Shop" |}.

Definition nested_title : Env :=
  Sample.world (fun _ => HttpResponse Gallery.shop_response)
    nested_title_page.

End Variants.

(** ** Properties of the pure methods *)

Section Regex.

Lemma run_lit (c : ascii) (w s : string) (k : string -> bool) :
  Re.run true (Re.lit c w) s k =
  match strip_prefix_ci (String c w) s with
  | Some rest => k rest
  | None => false
  end.
Proof.
  revert c s k.
  induction w as [|c' w IH]; intros c s k.
  - destruct s as [|b s]; simpl; [reflexivity|].
    unfold Re.chr_eqb. destruct (Ascii.eqb _ _); reflexivity.
  - destruct s as [|b s]; [reflexivity|].
    change (Re.lit c (String c' w)) with (Re.Cat (Re.Chr c) (Re.lit c' w)).
    cbn [Re.run strip_prefix_ci]. unfold Re.chr_eqb.
    destruct (Ascii.eqb (Re.lower c) (Re.lower b)); [|reflexivity].
    apply IH.
Qed.

Lemma strip_prefix_ci_app (p q s : string) :
  strip_prefix_ci (p +:+ q) s =
  match strip_prefix_ci p s with
  | Some rest => strip_prefix_ci q rest
  | None => None
  end.
Proof.
  revert s. induction p as [|a p IH]; intros s; [reflexivity|].
  destruct s as [|b s]; [reflexivity|].
  simpl. destruct (Ascii.eqb _ _); [apply IH|reflexivity].
Qed.

(** The regular expression accepts exactly the three scheme prefixes. *)
Lemma _is_valid_url_scheme_prefix (url : string) :
  _is_valid_url url = scheme_prefix url.
Proof.
  assert (Htail : forall r, Re.run true (Re.lit ":" "//") r (fun _ => true)
                            = iprefix "://" r)
    by (intros r; rewrite run_lit; reflexivity).
  unfold _is_valid_url, scheme_prefix, Re.matches, scheme_regex.
  cbn [Re.run]. rewrite !run_lit.
  unfold iprefix at 1 2 3.
  change "http://" with ("http" +:+ "://").
  change "https://" with ("http" +:+ "s" +:+ "://").
  change "ftp://" with ("ftp" +:+ "://").
  rewrite !strip_prefix_ci_app.
  change (String "h" "ttp") with "http". change (String "f" "tp") with "ftp".
  destruct (strip_prefix_ci "ftp" url) as [r'|];
    destruct (strip_prefix_ci "http" url) as [r|];
    rewrite ?Htail; cbn [orb]; try reflexivity.
  all: try (rewrite strip_prefix_ci_app; destruct r as [|b r];
            [unfold iprefix; reflexivity|];
            cbn [strip_prefix_ci]; unfold Re.chr_eqb;
            destruct (Ascii.eqb (Re.lower "s") (Re.lower b));
            rewrite ?Htail; unfold iprefix; simpl;
            repeat match goal with
                   | |- context [match ?x with _ => _ end] => destruct x
                   end; reflexivity).
  all: unfold iprefix; destruct (strip_prefix_ci "://" r'); reflexivity.
Qed.

End Regex.

Lemma startswith_app (p s : string) :
  startswith p s = true <-> exists rest, s = p +:+ rest.
Proof.
  revert s. induction p as [|a p IH]; intros s; simpl.
  - split; [eauto|reflexivity].
  - destruct s as [|b s].
    + split; [discriminate|]. intros [rest H]. discriminate H.
    + destruct (Ascii.eqb_spec a b) as [->|Hne].
      * rewrite IH. split; intros [rest H]; exists rest.
        -- now rewrite H.
        -- now injection H.
      * split; [discriminate|]. intros [rest H]. injection H as H1 _.
        now destruct Hne.
Qed.

(** ** The score *)

Section Score.

Import Points.

(** One rule: the running score plus the rule's points. *)
Lemma rule_two_tier (b c : bool) (s : Z) :
  (if b then s + 10 else if c then s + 5 else s)
  = s + (if b then 10 else if c then 5 else 0).
Proof. destruct b, c; lia. Qed.

Lemma rule_one_tier (b : bool) (s a : Z) :
  (if b then s + a else s) = s + (if b then a else 0).
Proof. destruct b; lia. Qed.

(** Unfolds the outermost [let] of the left-hand side and rewrites the new
    score as the old score plus the points of the rule. *)
Ltac score_step :=
  lazymatch goal with
  | |- (let x := ?v in @?body x) = ?rhs =>
      change (body v = rhs); cbv beta;
      rewrite ?rule_two_tier, ?rule_one_tier
  end.

(** The score is the sum of the points of the eleven rules, whenever the
    headings dict has its [h1] and [h2] entries. *)
Lemma _seo_analysis_sum title description keywords
    (headings : gmap string (list string)) alt_tags ratio load_time mobile
    internal_links external_links (h1 h2 : list string) :
  headings !! "h1" = Some h1 ->
  headings !! "h2" = Some h2 ->
  _seo_analysis title description keywords headings alt_tags ratio load_time
    mobile internal_links external_links
  = Ok (of_title title + of_description description + of_keywords keywords
        + of_h1 h1 + of_h2 h2
        + of_links internal_links + of_links external_links
        + of_alt_tags alt_tags + of_ratio ratio + of_load_time load_time
        + of_mobile mobile).
Proof.
  intros H1 H2.
  cbv beta delta [_seo_analysis getitem]. rewrite H1, H2.
  cbv beta iota delta [rbind].
  repeat score_step.
  reflexivity.
Qed.

(** A missing [h1] or [h2] entry is a [KeyError]. *)
Lemma _seo_analysis_KeyError title description keywords
    (headings : gmap string (list string)) alt_tags ratio load_time mobile
    internal_links external_links :
  headings !! "h1" = None \/ headings !! "h2" = None ->
  exists key,
    _seo_analysis title description keywords headings alt_tags ratio load_time
      mobile internal_links external_links = Raise (KeyError key).
Proof.
  unfold _seo_analysis, getitem.
  destruct (headings !! "h1") as [h1|] eqn:E1; cbn [rbind].
  - intros [H|H]; [discriminate|]. rewrite H. cbn [rbind]. eauto.
  - eauto.
Qed.

Lemma award_10 (b : bool) : award 2 (if b then 10 else 0).
Proof. destruct b; [exists 2|exists 0]; lia. Qed.

Lemma award_5 (b : bool) : award 1 (if b then 5 else 0).
Proof. destruct b; [exists 1|exists 0]; lia. Qed.

Lemma award_10_5 (b c : bool) :
  award 2 (if b then 10 else if c then 5 else 0).
Proof. destruct b, c; [exists 2|exists 2|exists 1|exists 0]; lia. Qed.

Lemma score_range title description keywords h1 h2 alt_tags ratio load_time
    mobile internal_links external_links :
  let s := of_title title + of_description description + of_keywords keywords
           + of_h1 h1 + of_h2 h2
           + of_links internal_links + of_links external_links
           + of_alt_tags alt_tags + of_ratio ratio + of_load_time load_time
           + of_mobile mobile in
  0 <= s <= 105 /\ (5 | s).
Proof.
  intros s. subst s.
  destruct (award_10_5 (truthy title && (len (default "" title) <=? 60))
              (truthy title)) as (k1 & ? & E1).
  destruct (award_10_5
              (truthy description
               && ((150 <=? len description) && (len description <=? 160)))
              (truthy description)) as (k2 & ? & E2).
  destruct (award_10 (truthy keywords)) as (k3 & ? & E3).
  destruct (award_10 (truthy h1)) as (k4 & ? & E4).
  destruct (award_5 (truthy h2)) as (k5 & ? & E5).
  destruct (award_10 (truthy internal_links)) as (k6 & ? & E6).
  destruct (award_10 (truthy external_links)) as (k7 & ? & E7).
  destruct (award_10 (truthy alt_tags)) as (k8 & ? & E8).
  destruct (award_10 (gt_tenth ratio)) as (k9 & ? & E9).
  destruct (award_10_5 (lt_int load_time 3) (lt_int load_time 5))
    as (k10 & ? & E10).
  destruct (award_10 (truthy mobile)) as (k11 & ? & E11).
  unfold of_title, of_description, of_keywords, of_h1, of_h2, of_links,
    of_alt_tags, of_ratio, of_load_time, of_mobile.
  rewrite E1, E2, E3, E4, E5, E6, E7, E8, E9, E10, E11.
  split; [lia|].
  exists (k1 + k2 + k3 + k4 + k5 + k6 + k7 + k8 + k9 + k10 + k11). lia.
Qed.

Lemma truthy_str_ne (s : string) : s <> "" -> truthy s = true.
Proof. destruct s; [congruence|reflexivity]. Qed.

Lemma truthy_list_ne {A} (l : list A) : l <> [] -> truthy l = true.
Proof. destruct l; [congruence|reflexivity]. Qed.

Lemma len_truthy (s : string) : 0 < len s -> truthy s = true.
Proof. destruct s; [unfold len; simpl; lia|reflexivity]. Qed.

(** The best combination of signals scores 105. *)
Lemma best_signals_sum title description keywords h1 h2 alt_tags ratio
    load_time mobile internal_links external_links :
  best_signals title description keywords h1 h2 alt_tags ratio load_time
    mobile internal_links external_links ->
  of_title title + of_description description + of_keywords keywords
  + of_h1 h1 + of_h2 h2
  + of_links internal_links + of_links external_links
  + of_alt_tags alt_tags + of_ratio ratio + of_load_time load_time
  + of_mobile mobile = 105.
Proof.
  intros [(t & -> & Ht & Hl) Hd Hk Hh1 Hh2 Hi He Ha -> -> ->].
  unfold of_title, of_description, of_keywords, of_h1, of_h2, of_links,
    of_alt_tags, of_ratio, of_load_time, of_mobile.
  cbn [truthy truthy_option default].
  rewrite (truthy_str_ne t Ht), (truthy_str_ne keywords Hk).
  rewrite (len_truthy description) by lia.
  rewrite !truthy_list_ne by assumption.
  rewrite Hd. unfold id.
  replace (len t <=? 60) with true by (symmetry; apply Z.leb_le; exact Hl).
  vm_compute. reflexivity.
Qed.

End Score.

(** ** The effectful methods *)

Section Effects.

Import Signals.

Variable env : Env.
Variable url : string.

Lemma count_gets_app (tr tr' : list event) :
  count_gets (tr ++ tr') = (count_gets tr + count_gets tr')%nat.
Proof.
  induction tr as [|e tr IH]; [reflexivity|].
  destruct e; simpl; rewrite IH; reflexivity.
Qed.

(** One call, no retry, a label for every exception of [requests]; any
    other exception passes the three [except] clauses. *)
Lemma get_status_code_eq (tr : list event) :
  get_status_code env url tr
  = (fetched (http env (count_gets tr) url), tr ++ [HttpGet url 5]).
Proof.
  unfold get_status_code, try_except, bind, requests_get, ret, fetched, label.
  destruct (http env (count_gets tr) url) as [r|[msg|msg|msg]|msg];
    reflexivity.
Qed.

(** The timing request returns infinity for an exception of [requests]
    and lets any other exception pass. *)
Lemma _measure_page_load_time_eq (tr : list event) :
  _measure_page_load_time env url tr
  = (load_time (http env (count_gets tr) url), tr ++ [HttpGet url 5]).
Proof.
  unfold _measure_page_load_time, try_except, bind, requests_get, ret,
    load_time.
  destruct (http env (count_gets tr) url) as [r|e|msg]; reflexivity.
Qed.

(** A caught outcome of the timing request gives a load time. *)
Lemma caught_load_time (o : http_outcome) :
  caught o = true -> exists t, load_time o = Ok t.
Proof. destruct o; [cbn; eauto..|discriminate]. Qed.

(** The comprehensions over the anchors and the images never raise: an
    attribute is only read where the filter has found it. *)
Lemma comprehension_hrefs (keep : string -> bool) (l : list Tag) :
  Bs4.comprehension
    (fun a =>
       rbind (getitem (tag_attrs a) "href") (fun h =>
       if keep h
       then rbind (getitem (tag_attrs a) "href") (fun h' => Ok (Some h'))
       else Ok None))
    (List.filter (fun t => bool_decide (is_Some (tag_attrs t !! "href"))) l)
  = Ok (List.filter keep (omap (fun a => tag_attrs a !! "href") l)).
Proof.
  induction l as [|a l IH]; [reflexivity|].
  cbn [List.filter omap list_omap].
  destruct (tag_attrs a !! "href") as [h|] eqn:E.
  - rewrite bool_decide_true by eauto.
    cbn [Bs4.comprehension]. rewrite IH. unfold getitem. rewrite E.
    cbn [rbind List.filter]. destruct (keep h); reflexivity.
  - rewrite bool_decide_false by (intros [? ?]; discriminate).
    exact IH.
Qed.

Lemma comprehension_alts (l : list Tag) :
  Bs4.comprehension
    (fun img =>
       if bool_decide (is_Some (tag_attrs img !! "alt"))
       then rbind (getitem (tag_attrs img) "alt") (fun a => Ok (Some a))
       else Ok None)
    l
  = Ok (omap (fun img => tag_attrs img !! "alt") l).
Proof.
  induction l as [|a l IH]; [reflexivity|].
  cbn [Bs4.comprehension omap list_omap]. rewrite IH. unfold getitem.
  destruct (tag_attrs a !! "alt") as [h|] eqn:E.
  - rewrite bool_decide_true by eauto. reflexivity.
  - rewrite bool_decide_false by (intros [? ?]; discriminate). reflexivity.
Qed.

Lemma extract_page_info_eq (tr : list event) :
  extract_page_info env url tr
  = (fst (extraction env url (count_gets tr)),
     tr ++ snd (extraction env url (count_gets tr))).
Proof.
  unfold extract_page_info, extraction.
  unfold bind at 1. rewrite get_status_code_eq.
  destruct (http env (count_gets tr) url) as [r|e|msg] eqn:Ho.
  - cbn [fetched status_ne_200 str_status].
    destruct (status_code r =? 200); cbn [negb]; [|reflexivity].
    unfold Bs4.find_all_with, meta_content, page, page_title, page_headings,
      hrefs, alts, ratio.
    cbv beta iota zeta delta [bind BeautifulSoup emit ret lift].
    cbn [default from_option id].
    rewrite (comprehension_hrefs (startswith "/")),
      (comprehension_hrefs (fun h => negb (startswith "/" h))),
      comprehension_alts.
    repeat match goal with
           | |- context [Bs4.find ?s "meta" "name" ?n] =>
               destruct (Bs4.find s "meta" "name" n)
           | |- context [getitem (tag_attrs ?m) "content"] =>
               destruct (getitem (tag_attrs m) "content")
           end;
      rewrite ?_measure_page_load_time_eq, ?count_gets_app, <- ?app_assoc;
      cbn [count_gets app]; rewrite ?Nat.add_0_r, ?Nat.add_1_r;
      try destruct (load_time (http env (S (count_gets tr)) url));
      reflexivity.
  - reflexivity.
  - reflexivity.
Qed.

(** Without the [https://] prefix no connection is opened; with it, one
    handshake, whose failure becomes a string. *)
Lemma check_ssl_certificate_eq (tr : list event) :
  check_ssl_certificate env url tr
  = if is_https url then
      let host := remove_all "https://" 0 url in
      (Ok (ssl_info (tls env host 443)), tr ++ [TlsConnect host 443])
    else (Ok "No SSL Certificate for non-HTTPS URLs", tr).
Proof.
  unfold check_ssl_certificate.
  destruct (is_https url); [|reflexivity].
  unfold try_except, bind, get_server_certificate, ret, ssl_info. cbn [negb].
  destruct (tls env _ 443); reflexivity.
Qed.

Lemma count_gets_snoc (tr : list event) (e : event) :
  count_gets (tr ++ [e]) = (count_gets tr + count_gets [e])%nat.
Proof. apply count_gets_app. Qed.

(** An invalid format ends the run after one line of output. *)
Lemma main_invalid (tr : list event) :
  truthy (is_valid_format env url) = false ->
  main env url tr
  = (Ok tt, tr ++ [LogConfig "url_validator.log";
                   Print "URL format is invalid."]).
Proof.
  intros H. unfold main, setup_logging, bind, emit, print. rewrite H.
  unfold emit. rewrite <- app_assoc. reflexivity.
Qed.

(** [main] subscripts [page_info] whenever the first status is an int, also
    when [extract_page_info] has returned its error string. *)
Lemma main_TypeError (tr : list event) (msg : string) (st : status)
    (body : option string) :
  truthy (is_valid_format env url) = true ->
  fetched (http env (count_gets tr) url) = Ok (st, body) ->
  isinstance_int st = true ->
  fst (extraction env url (S (count_gets tr))) = Ok (PageStr msg) ->
  exists tr',
    main env url tr
    = (Raise (TypeError "string indices must be integers, not 'str'"), tr').
Proof.
  intros Hvalid Hst Hint Hpage.
  unfold main, setup_logging. unfold bind at 1. unfold emit at 1.
  rewrite Hvalid. unfold bind at 1. rewrite get_status_code_eq.
  rewrite count_gets_snoc. cbn [count_gets]. rewrite Nat.add_0_r, Hst.
  unfold bind at 1. rewrite extract_page_info_eq.
  rewrite !count_gets_snoc. cbn [count_gets].
  rewrite Nat.add_0_r, Nat.add_1_r, Hpage.
  unfold bind at 1. rewrite check_ssl_certificate_eq, Hint.
  destruct (is_https url); cbv beta iota zeta;
    unfold bind, print, emit, subscript, raise; eauto.
Qed.

(** The headings dict of a page always has its [h1] and [h2] entries. *)
Lemma page_headings_h1 (soup : Soup) :
  page_headings soup !! "h1" = Some (heading_texts soup "h1").
Proof. unfold page_headings. now rewrite lookup_insert_eq. Qed.

Lemma page_headings_h2 (soup : Soup) :
  page_headings soup !! "h2" = Some (heading_texts soup "h2").
Proof.
  unfold page_headings.
  rewrite lookup_insert_ne by discriminate. now rewrite lookup_insert_eq.
Qed.

(** A dict that [extract_page_info] returns has the [h1] and [h2] entries
    [_seo_analysis] looks up. *)
Lemma extraction_headings (n : nat) (info : PageInfo) :
  fst (extraction env url n) = Ok (PageDict info) ->
  exists h1 h2,
    headings info !! "h1" = Some h1 /\ headings info !! "h2" = Some h2.
Proof.
  unfold extraction.
  destruct (http env n url) as [r|e|msg]; [|discriminate..].
  destruct (status_code r =? 200); [|discriminate].
  destruct (meta_content _ "description" _); [|discriminate].
  destruct (meta_content _ "keywords" _); [|discriminate].
  destruct (load_time _); [|discriminate].
  cbn [fst]. intros [= <-]. cbn [headings page].
  eauto using page_headings_h1, page_headings_h2.
Qed.

(** With a dict in hand, [main] runs to its end. *)
Lemma main_completes (tr : list event) (info : PageInfo) (st : status)
    (body : option string) :
  truthy (is_valid_format env url) = true ->
  fetched (http env (count_gets tr) url) = Ok (st, body) ->
  isinstance_int st = true ->
  fst (extraction env url (S (count_gets tr))) = Ok (PageDict info) ->
  exists tr', main env url tr = (Ok tt, tr').
Proof.
  intros Hvalid Hst Hint Hpage.
  destruct (extraction_headings _ _ Hpage) as (h1 & h2 & H1 & H2).
  unfold main, setup_logging. unfold bind at 1. unfold emit at 1.
  rewrite Hvalid. unfold bind at 1. rewrite get_status_code_eq.
  rewrite count_gets_snoc. cbn [count_gets]. rewrite Nat.add_0_r, Hst.
  unfold bind at 1. rewrite extract_page_info_eq.
  rewrite !count_gets_snoc. cbn [count_gets].
  rewrite Nat.add_0_r, Nat.add_1_r, Hpage.
  unfold bind at 1. rewrite check_ssl_certificate_eq, Hint.
  unfold log_results.
  destruct (is_https url); cbv beta iota zeta;
    unfold bind, print, logging_info, emit, subscript, ret, lift;
    rewrite (_seo_analysis_sum _ _ _ _ _ _ _ _ _ _ _ _ H1 H2); eauto.
Qed.

End Effects.

(** ** The score: range and maximum *)

Section ScoreClaims.

Import Points.

Variables (title : option string) (description keywords : string).
Variables (headings : gmap string (list string)) (h1 h2 : list string).
Variables (alt_tags internal_links external_links : list string).
Variables (ratio : number) (load_time : float) (mobile : bool).

(** C1, as amended: the maximum attainable score is 105. With the [h1] and
    [h2] entries in the headings dict, [_seo_analysis] returns a score of at
    most 105 for every combination of signals, and exactly 105 for the
    combination of the specification (title present and at most 60
    characters, description of length 155, keywords present, h1 and h2
    present, internal and external links, alt tags, ratio 0.2, load time
    2.0, mobile friendly). *)
Theorem seo_score_max_105 :
  headings !! "h1" = Some h1 ->
  headings !! "h2" = Some h2 ->
  exists s,
    _seo_analysis title description keywords headings alt_tags ratio
      load_time mobile internal_links external_links = Ok s
    /\ s <= 105
    /\ (best_signals title description keywords h1 h2 alt_tags ratio
          load_time mobile internal_links external_links -> s = 105).
Proof.
  intros H1 H2. eexists. split; [apply (_seo_analysis_sum _ _ _ _ _ _ _ _ _ _ _ _ H1 H2)|].
  split.
  - apply (score_range title description keywords h1 h2 alt_tags ratio
             load_time mobile internal_links external_links).
  - apply best_signals_sum.
Qed.

(** C10: for every combination of signals (the headings dict holding its
    [h1] and [h2] entries), [_seo_analysis] returns an integer that is a
    multiple of 5 between 0 and 105. *)
Theorem seo_score_multiple_of_5_in_range :
  headings !! "h1" = Some h1 ->
  headings !! "h2" = Some h2 ->
  exists s,
    _seo_analysis title description keywords headings alt_tags ratio
      load_time mobile internal_links external_links = Ok s
    /\ 0 <= s <= 105
    /\ (5 | s).
Proof.
  intros H1 H2. eexists. split; [apply (_seo_analysis_sum _ _ _ _ _ _ _ _ _ _ _ _ H1 H2)|].
  apply (score_range title description keywords h1 h2 alt_tags ratio
           load_time mobile internal_links external_links).
Qed.

End ScoreClaims.

Lemma best_signals_sample :
  best_signals (Some "Home") Sample.description_155 "seo, audit"
    ["Welcome"] ["About"] ["logo"] (PyFloat 0x1.999999999999ap-3%float)
    2%float true ["/about"] ["https://example.org/"].
Proof.
  split; try discriminate; try reflexivity.
  exists "Home". repeat split; [discriminate|]. vm_compute. discriminate.
Defined.

(** C1, the specification's combination: it scores 105, not 115. *)
Lemma seo_score_best_is_not_115 :
  best_signals (Some "Home") Sample.description_155 "seo, audit"
    ["Welcome"] ["About"] ["logo"] (PyFloat 0x1.999999999999ap-3%float)
    2%float true ["/about"] ["https://example.org/"]
  /\ _seo_analysis (Some "Home") Sample.description_155 "seo, audit"
       Sample.best_headings ["logo"] (PyFloat 0x1.999999999999ap-3%float)
       2%float true ["/about"] ["https://example.org/"] <> Ok 115.
Proof.
  split; [exact best_signals_sample|].
  vm_compute. discriminate.
Qed.

Lemma seo_score_max_105_witness :
  Sample.best_headings !! "h1" = Some ["Welcome"]
  /\ Sample.best_headings !! "h2" = Some ["About"]
  /\ exists s,
       _seo_analysis (Some "Home") Sample.description_155 "seo, audit"
         Sample.best_headings ["logo"] (PyFloat 0x1.999999999999ap-3%float)
         2%float true ["/about"] ["https://example.org/"] = Ok s
       /\ s <= 105
       /\ (best_signals (Some "Home") Sample.description_155 "seo, audit"
             ["Welcome"] ["About"] ["logo"]
             (PyFloat 0x1.999999999999ap-3%float) 2%float true ["/about"]
             ["https://example.org/"] -> s = 105).
Proof.
  split; [reflexivity|]. split; [reflexivity|].
  apply (seo_score_max_105 (Some "Home") Sample.description_155 "seo, audit"
           Sample.best_headings ["Welcome"] ["About"]); reflexivity.
Defined.

Lemma seo_score_multiple_of_5_in_range_witness :
  Sample.best_headings !! "h1" = Some ["Welcome"]
  /\ Sample.best_headings !! "h2" = Some ["About"]
  /\ exists s,
       _seo_analysis None "" "" Sample.best_headings [] (PyInt 0) infinity
         false [] [] = Ok s
       /\ 0 <= s <= 105
       /\ (5 | s).
Proof.
  split; [reflexivity|]. split; [reflexivity|].
  apply (seo_score_multiple_of_5_in_range None "" "" Sample.best_headings
           ["Welcome"] ["About"]); reflexivity.
Defined.

(** ** The URL checks *)

(** C3, as amended: [is_https] is a literal prefix check, true exactly of
    the strings that begin with [https://]. It is false of
    [http://example.com], true of [https://example.com] and false of
    [httpsx://x], whose sixth character is not the colon. *)
Theorem is_https_literal_prefix :
  (forall url, is_https url = true <-> exists rest, url = "https://" +:+ rest)
  /\ is_https "http://example.com" = false
  /\ is_https "https://example.com" = true
  /\ is_https "httpsx://x" = false.
Proof.
  split; [intros url; apply startswith_app|].
  repeat split.
Qed.

(** C3, the third example of the specification: [httpsx://x] does not
    pass the check. *)
Lemma is_https_httpsx_is_false :
  ~ (is_https "http://example.com" = false
     /\ is_https "https://example.com" = true
     /\ is_https "httpsx://x" = true).
Proof. intros (_ & _ & H). vm_compute in H. discriminate H. Qed.

Section FormatClaims.

Variable env : Env.
Variable url : string.

(** C4: [is_valid_format] is true exactly when the URL begins with
    [http://], [https://] or [ftp://] (the regular expression
    [^(https?|ftp)://], case-insensitive) and [validators.url] accepts it.
    For a URL without such a prefix it returns [False], and the run prints
    one line and makes no network call. *)
Theorem is_valid_format_iff :
  Re.matches true scheme_regex url = scheme_prefix url
  /\ (truthy (is_valid_format env url) = true
   <-> scheme_prefix url = true /\ validators_url env url = ValidationTrue)
  /\ (scheme_prefix url = false ->
      is_valid_format env url = inl false
      /\ forall tr, exists added,
           main env url tr = (Ok tt, tr ++ added)
           /\ added = [LogConfig "url_validator.log";
                       Print "URL format is invalid."]
           /\ forallb (fun e => negb (is_network e)) added = true).
Proof.
  split; [apply _is_valid_url_scheme_prefix|].
  unfold is_valid_format, py_and.
  rewrite _is_valid_url_scheme_prefix.
  split.
  - destruct (scheme_prefix url); cbn.
    + destruct (validators_url env url); cbn; split;
        try tauto; try discriminate.
      intros [_ H]. discriminate H.
    + split; [discriminate|]. intros [H _]. discriminate H.
  - intros H. rewrite H. cbn. split; [reflexivity|].
    intros tr. eexists. split; [|split; reflexivity].
    apply main_invalid. unfold is_valid_format, py_and.
    rewrite _is_valid_url_scheme_prefix, H. reflexivity.
Qed.

(** C8: for a URL that does not begin with [https://],
    [check_ssl_certificate] returns the fixed message and opens no
    connection: the trace is unchanged. *)
Theorem check_ssl_certificate_non_https (tr : list event) :
  is_https url = false ->
  check_ssl_certificate env url tr
  = (Ok "No SSL Certificate for non-HTTPS URLs", tr).
Proof.
  intros H. rewrite check_ssl_certificate_eq, H. reflexivity.
Qed.

End FormatClaims.

Lemma is_valid_format_iff_witness :
  scheme_prefix "example.com" = false
  /\ is_valid_format
       (Sample.world (fun _ => Sample.ok_response "") Sample.home_page)
       "example.com" = inl false
  /\ main (Sample.world (fun _ => Sample.ok_response "") Sample.home_page)
       "example.com" []
     = (Ok tt, [LogConfig "url_validator.log";
                Print "URL format is invalid."]).
Proof.
  split; [reflexivity|].
  destruct (proj2 (proj2 (is_valid_format_iff
                            (Sample.world (fun _ => Sample.ok_response "")
                               Sample.home_page)
                            "example.com")) eq_refl) as [Hfalse Hmain].
  split; [exact Hfalse|].
  destruct (Hmain []) as (added & Hrun & -> & _). exact Hrun.
Defined.

Lemma check_ssl_certificate_non_https_witness :
  is_https "http://example.com" = false
  /\ check_ssl_certificate
       (Sample.world (fun _ => Sample.ok_response "") Sample.home_page)
       "http://example.com" []
     = (Ok "No SSL Certificate for non-HTTPS URLs", []).
Proof.
  split; [reflexivity|].
  apply (check_ssl_certificate_non_https
           (Sample.world (fun _ => Sample.ok_response "") Sample.home_page)
           "http://example.com" []).
  reflexivity.
Defined.

(** ** Fetching and extracting *)

Section FetchClaims.

Import Signals.

Variable env : Env.
Variable url : string.
Variable tr : list event.

(** C6, what the code does: [get_status_code] calls [requests.get] exactly
    once, with a timeout of 5. It returns the status code and the body on
    success, and the label [Request Timeout], [Too Many Redirects] or
    [Request Exception: ...] with no body for the three kinds of exception
    of [requests]. An exception from outside [requests.exceptions] matches
    none of the three [except] clauses: it is not returned as a label, it
    propagates to the caller. *)
Theorem get_status_code_outcomes :
  get_status_code env url tr
  = (match http env (count_gets tr) url with
     | HttpResponse r => Ok (StatusInt (status_code r), Some (text r))
     | HttpRaises (Timeout _) => Ok (StatusStr "Request Timeout", None)
     | HttpRaises (TooManyRedirects _) =>
         Ok (StatusStr "Too Many Redirects", None)
     | HttpRaises (OtherRequestException description) =>
         Ok (StatusStr ("Request Exception: " +:+ description), None)
     | HttpRaisesOther msg => Raise (Exception msg)
     end,
     tr ++ [HttpGet url 5]).
Proof.
  unfold get_status_code, try_except, bind, requests_get, ret.
  destruct (http env (count_gets tr) url) as [r|[msg|msg|msg]|msg].
  - (* a response: the status code and the body *)
    reflexivity.
  - (* [except Timeout] *)
    reflexivity.
  - (* [except TooManyRedirects] *)
    reflexivity.
  - (* [except RequestException as e] *)
    reflexivity.
  - (* no clause matches: the exception leaves the method *)
    reflexivity.
Qed.

(** C5: when the status [get_status_code] returns is not the int 200,
    [extract_page_info] returns [Error: Status code] followed by that
    status, after the one GET and without parsing; a timeout gives
    [Error: Status code Request Timeout]. *)
Theorem extract_page_info_error_status
    (st : status) (body : option string) (tr' : list event) :
  get_status_code env url tr = (Ok (st, body), tr') ->
  st <> StatusInt 200 ->
  extract_page_info env url tr
  = (Ok (PageStr ("Error: Status code " +:+ str_status st)), tr')
  /\ tr' = tr ++ [HttpGet url 5]
  /\ (forall msg, http env (count_gets tr) url = HttpRaises (Timeout msg) ->
      extract_page_info env url tr
      = (Ok (PageStr "Error: Status code Request Timeout"),
         tr ++ [HttpGet url 5])).
Proof.
  rewrite get_status_code_eq. intros Hfetch Hne.
  injection Hfetch as Hst <-.
  rewrite extract_page_info_eq. unfold extraction.
  split; [|split; [reflexivity|]].
  - destruct (http env (count_gets tr) url) as [r|e|msg].
    + injection Hst as <- _. cbn [str_status].
      destruct (Z.eqb_spec (status_code r) 200) as [E|_];
        [|reflexivity].
      destruct Hne. now rewrite E.
    + injection Hst as <- _. reflexivity.
    + discriminate Hst.
  - intros msg ->. reflexivity.
Qed.

(** C7, what the code does: on a 200 response whose first description or
    keywords [meta] element has no [content] attribute, the subscript
    [description['content']] of line 38 (or [keywords['content']] of line
    40) raises [KeyError] right after the parse: no dict is returned, the
    ratio of lines 58 to 61 is never computed and the timing request is
    not sent. *)
Theorem extract_page_info_KeyError_without_content (r : Response)
    (m : Tag) :
  http env (count_gets tr) url = HttpResponse r ->
  status_code r = 200 ->
  Bs4.find (html_parser env (text r)) "meta" "name" "description" = Some m
  \/ Bs4.find (html_parser env (text r)) "meta" "name" "keywords" = Some m ->
  tag_attrs m !! "content" = None ->
  extract_page_info env url tr
  = (Raise (KeyError "content"), tr ++ [HttpGet url 5; HtmlParse (text r)]).
Proof.
  intros Ho H200 Hm Hc.
  rewrite extract_page_info_eq. unfold extraction, meta_content, getitem.
  rewrite Ho, H200. cbn [Z.eqb Pos.eqb].
  destruct Hm as [Hm|Hm]; rewrite Hm, Hc.
  - reflexivity.
  - destruct (Bs4.find _ "meta" "name" "description") as [md|];
      [destruct (tag_attrs md !! "content")|]; reflexivity.
Qed.

(** X19: where the extraction completes (a 200 response whose description
    and keywords [meta] elements, if any, carry a [content] attribute, and
    a timing request that returns or raises an exception of [requests]),
    [extract_page_info] returns the dict, and its [text_to_html_ratio] is
    the quotient [T / H] of the length of the visible text by the length
    of the body when [H > 0], and the int 0 when [H = 0]. *)
Theorem text_to_html_ratio_quotient (r : Response) (d k : string) :
  http env (count_gets tr) url = HttpResponse r ->
  status_code r = 200 ->
  meta_content (html_parser env (text r)) "description" "No Description"
    = Ok d ->
  meta_content (html_parser env (text r)) "keywords" "No Keywords" = Ok k ->
  caught (http env (S (count_gets tr)) url) = true ->
  exists info tr',
    extract_page_info env url tr = (Ok (PageDict info), tr')
    /\ let T := len (soup_get_text (html_parser env (text r))) in
       let H := len (text r) in
       (0 < H -> text_to_html_ratio info = PyFloat (truediv T H))
       /\ (H = 0 -> text_to_html_ratio info = PyInt 0).
Proof.
  intros Ho H200 Hd Hk Hc.
  rewrite extract_page_info_eq. unfold extraction.
  rewrite Ho, H200, Hd, Hk. cbn [Z.eqb Pos.eqb fst snd].
  destruct (http env (S (count_gets tr)) url) as [r2|e2|msg];
    [| |discriminate Hc];
    cbn [load_time];
    (do 2 eexists; split; [reflexivity|]);
    cbn [page text_to_html_ratio]; unfold ratio; split.
  3: { intros H. apply Z.ltb_lt in H. now rewrite H. }
  3: { intros ->. reflexivity. }
  - intros H. apply Z.ltb_lt in H. now rewrite H.
  - intros ->. reflexivity.
Qed.

(** C2, what the code does: on a 200 page without a [meta] keywords
    element, [extract_page_info] puts the default [No Keywords] in the
    dict, and the score of that dict is 10 points above the score of the
    same dict with empty keywords: the default earns the keywords points.
    (The dict is returned when the timing request returns or raises an
    exception of [requests].) *)
Theorem default_keywords_earn_10 (r : Response) (d : string) :
  http env (count_gets tr) url = HttpResponse r ->
  status_code r = 200 ->
  Bs4.find (html_parser env (text r)) "meta" "name" "keywords" = None ->
  meta_content (html_parser env (text r)) "description" "No Description"
    = Ok d ->
  caught (http env (S (count_gets tr)) url) = true ->
  exists info tr' s,
    extract_page_info env url tr = (Ok (PageDict info), tr')
    /\ keywords info = "No Keywords"
    /\ score (with_keywords info "") = Ok s
    /\ score info = Ok (s + 10).
Proof.
  intros Ho H200 Hk Hd Hc.
  rewrite extract_page_info_eq. unfold extraction.
  rewrite Ho, H200, Hd. unfold meta_content at 1. rewrite Hk.
  cbn [Z.eqb Pos.eqb fst snd].
  destruct (load_time (http env (S (count_gets tr)) url)) as [t|e] eqn:Et;
    [|destruct (http env (S (count_gets tr)) url); discriminate].
  do 3 eexists. split; [reflexivity|]. split; [reflexivity|].
  unfold score, with_keywords, page;
    cbn [title description keywords headings alt_tags text_to_html_ratio
         page_load_time mobile_friendly internal_links external_links].
  rewrite !(_seo_analysis_sum _ _ _ _ _ _ _ _ _ _ _ _
              (page_headings_h1 _) (page_headings_h2 _)).
  split; [reflexivity|]. f_equal. unfold Points.of_keywords.
  cbn [truthy truthy_str]. lia.
Qed.

(** C9, what the code does: for a URL of valid format, when the first GET
    is answered (with any status code) and the GET of [extract_page_info]
    is not answered with a 200 page, [main] ends with an exception. Where
    that second call returns another status or raises an exception of
    [requests], [extract_page_info] returns its error string and [main]
    subscripts it: [TypeError]. Where it lets another exception through,
    that exception ends [main]. *)
Theorem main_faults_on_error_string (r1 : Response) :
  truthy (is_valid_format env url) = true ->
  http env (count_gets tr) url = HttpResponse r1 ->
  is_ok_200 (http env (S (count_gets tr)) url) = false ->
  exists tr',
    main env url tr
    = (Raise match http env (S (count_gets tr)) url with
             | HttpRaisesOther msg => Exception msg
             | _ => TypeError "string indices must be integers, not 'str'"
             end,
       tr').
Proof.
  intros Hvalid H1 Hpage.
  assert (Hst : fetched (http env (count_gets tr) url)
                = Ok (StatusInt (status_code r1), Some (text r1)))
    by now rewrite H1.
  destruct (http env (S (count_gets tr)) url) as [r|e|msg] eqn:H2.
  - cbn in Hpage.
    apply (main_TypeError env url tr
             ("Error: Status code " +:+ str_int (status_code r))
             _ _ Hvalid Hst eq_refl).
    unfold extraction. now rewrite H2, Hpage.
  - apply (main_TypeError env url tr ("Error: Status code " +:+ label e)
             _ _ Hvalid Hst eq_refl).
    unfold extraction. now rewrite H2.
  - unfold main, setup_logging. unfold bind at 1. unfold emit at 1.
    rewrite Hvalid. unfold bind at 1. rewrite get_status_code_eq.
    rewrite count_gets_snoc. cbn [count_gets]. rewrite Nat.add_0_r, Hst.
    unfold bind at 1. rewrite extract_page_info_eq.
    rewrite !count_gets_snoc. cbn [count_gets].
    rewrite Nat.add_0_r, Nat.add_1_r.
    unfold extraction. rewrite H2. cbn [fst snd]. eauto.
Qed.

End FetchClaims.

(** ** The properties on concrete worlds *)

(** A page with a title and no description or keywords element gets the
    title and the two defaults. *)
Example extract_page_info_home :
  exists info tr',
    extract_page_info Runs.online Runs.url [] = (Ok (PageDict info), tr')
    /\ title info = Some "Home"
    /\ description info = "No Description"
    /\ keywords info = "No Keywords"
    /\ tr' = [HttpGet Runs.url 5; HtmlParse Runs.body; HttpGet Runs.url 5].
Proof. do 2 eexists. split; [vm_compute; reflexivity|]. repeat split. Qed.

(** No signal at all and a failed timing request score 0. *)
Example seo_score_nothing :
  _seo_analysis None "" "" (Signals.page_headings (Build_Soup [] "")) []
    (PyInt 0) infinity false [] [] = Ok 0.
Proof. vm_compute. reflexivity. Qed.

(** The run of [main] whose second request times out, event by event. *)
Example main_flaky_run :
  main Runs.flaky Runs.url []
  = (Raise (TypeError "string indices must be integers, not 'str'"),
     [LogConfig "url_validator.log";
      HttpGet Runs.url 5;
      HttpGet Runs.url 5;
      TlsConnect "example.com" 443;
      Print "URL is valid and returned status code: 200";
      Print "HTTPS Check: Yes";
      Print "SSL Certificate: SSL Certificate Error: handshake failure";
      Print "Page Info:"]).
Proof. vm_compute. reflexivity. Qed.

(** A host urllib3 refuses: the exception leaves [get_status_code], and
    [main] with it, after the one call. *)
Example get_status_code_unparsable :
  get_status_code Runs.unparsable "http://a..b" []
  = (Raise (Exception "Failed to parse: 'a..b', label empty or too long"),
     [HttpGet "http://a..b" 5])
  /\ main Runs.unparsable "http://a..b" []
     = (Raise (Exception "Failed to parse: 'a..b', label empty or too long"),
        [LogConfig "url_validator.log"; HttpGet "http://a..b" 5]).
Proof. split; vm_compute; reflexivity. Qed.

(** The timing call lets an exception through: no dict is returned. *)
Example extract_page_info_redirected :
  extract_page_info Runs.redirected Runs.url []
  = (Raise (Exception "Failed to parse: 'a..b', label empty or too long"),
     [HttpGet Runs.url 5; HtmlParse Runs.body; HttpGet Runs.url 5]).
Proof. vm_compute. reflexivity. Qed.

Lemma extract_page_info_error_status_witness :
  get_status_code Runs.offline Runs.url []
  = (Ok (StatusStr "Request Timeout", None), [HttpGet Runs.url 5])
  /\ StatusStr "Request Timeout" <> StatusInt 200
  /\ extract_page_info Runs.offline Runs.url []
     = (Ok (PageStr "Error: Status code Request Timeout"),
        [HttpGet Runs.url 5]).
Proof.
  split; [reflexivity|]. split; [discriminate|].
  apply (extract_page_info_error_status Runs.offline Runs.url []
           (StatusStr "Request Timeout") None [HttpGet Runs.url 5]);
    [reflexivity|discriminate].
Defined.

Lemma text_to_html_ratio_quotient_witness :
  http Runs.online 0 Runs.url = Sample.ok_response Runs.body
  /\ Signals.meta_content Sample.home_page "description" "No Description"
     = Ok "No Description"
  /\ Signals.meta_content Sample.home_page "keywords" "No Keywords"
     = Ok "No Keywords"
  /\ exists info tr',
       extract_page_info Runs.online Runs.url [] = (Ok (PageDict info), tr')
       /\ text_to_html_ratio info = PyFloat (truediv 4 19).
Proof.
  split; [reflexivity|]. split; [reflexivity|]. split; [reflexivity|].
  destruct (text_to_html_ratio_quotient Runs.online Runs.url []
              {| status_code := 200; text := Runs.body; elapsed := 0.5 |}
              "No Description" "No Keywords"
              eq_refl eq_refl eq_refl eq_refl eq_refl)
    as (info & tr' & Hrun & Hpos & _).
  exists info, tr'. split; [exact Hrun|].
  apply Hpos. reflexivity.
Defined.

Lemma extract_page_info_KeyError_on_bare_meta :
  http Runs.bare_meta 0 Runs.url
  = Sample.ok_response "<title>Home</title><meta name='description'>"
  /\ extract_page_info Runs.bare_meta Runs.url []
     = (Raise (KeyError "content"),
        [HttpGet Runs.url 5;
         HtmlParse "<title>Home</title><meta name='description'>"])
  /\ ~ exists info tr',
         extract_page_info Runs.bare_meta Runs.url []
         = (Ok (PageDict info), tr').
Proof.
  split; [reflexivity|].
  pose proof (extract_page_info_KeyError_without_content
                Runs.bare_meta Runs.url []
                {| status_code := 200;
                   text := "<title>Home</title><meta name='description'>";
                   elapsed := 0.5 |}
                (Sample.meta "description" None)
                eq_refl eq_refl (or_introl eq_refl) eq_refl) as E.
  split; [exact E|].
  intros (info & tr' & H). rewrite E in H. discriminate H.
Defined.

Lemma default_keywords_earn_10_witness :
  http Runs.online 0 Runs.url = Sample.ok_response Runs.body
  /\ Bs4.find Sample.home_page "meta" "name" "keywords" = None
  /\ exists info tr' s,
       extract_page_info Runs.online Runs.url [] = (Ok (PageDict info), tr')
       /\ keywords info = "No Keywords"
       /\ Signals.score (Signals.with_keywords info "") = Ok s
       /\ Signals.score info = Ok (s + 10).
Proof.
  split; [reflexivity|]. split; [reflexivity|].
  apply (default_keywords_earn_10 Runs.online Runs.url []
           {| status_code := 200; text := Runs.body; elapsed := 0.5 |}
           "No Description");
    reflexivity.
Defined.

Lemma main_faults_on_error_string_witness :
  truthy (is_valid_format Runs.flaky Runs.url) = true
  /\ http Runs.flaky 0 Runs.url = Sample.ok_response Runs.body
  /\ http Runs.flaky 1 Runs.url = HttpRaises (Timeout "timed out")
  /\ exists tr',
       main Runs.flaky Runs.url []
       = (Raise (TypeError "string indices must be integers, not 'str'"), tr').
Proof.
  split; [reflexivity|]. split; [reflexivity|]. split; [reflexivity|].
  apply (main_faults_on_error_string Runs.flaky Runs.url []
           {| status_code := 200; text := Runs.body; elapsed := 0.5 |});
    reflexivity.
Defined.

(** ** The whole run *)

Section Run.

Import Signals Report.

Variable env : Env.
Variable url : string.



End Run.

(** ** Further properties of the URL checks *)

Section UrlChecks.

Import Trace.

Lemma strip_prefix_ci_append (p u v r : string) :
  strip_prefix_ci p u = Some r ->
  strip_prefix_ci p (u +:+ v) = Some (r +:+ v).
Proof.
  revert u. induction p as [|a p IH]; intros u; simpl.
  - now intros [= ->].
  - destruct u as [|b u]; [discriminate|]. simpl.
    destruct (Ascii.eqb _ _); [apply IH|discriminate].
Qed.

Lemma iprefix_append (p u v : string) :
  iprefix p u = true -> iprefix p (u +:+ v) = true.
Proof.
  unfold iprefix.
  destruct (strip_prefix_ci p u) as [r|] eqn:E; [|discriminate].
  now rewrite (strip_prefix_ci_append _ _ v _ E).
Qed.

Lemma strip_prefix_ci_lower (p u v : string) :
  lower_str u = lower_str v ->
  match strip_prefix_ci p u, strip_prefix_ci p v with
  | Some r, Some r' => lower_str r = lower_str r'
  | None, None => True
  | _, _ => False
  end.
Proof.
  revert u v. induction p as [|a p IH]; intros u v H; simpl; [exact H|].
  destruct u as [|b u], v as [|b' v]; try discriminate H; [exact I|].
  simpl in H. injection H as Hc Hrest. rewrite Hc.
  destruct (Ascii.eqb _ _); [now apply IH|exact I].
Qed.

Lemma iprefix_lower (p u v : string) :
  lower_str u = lower_str v -> iprefix p u = iprefix p v.
Proof.
  intros H. unfold iprefix.
  pose proof (strip_prefix_ci_lower p u v H) as Hs.
  destruct (strip_prefix_ci p u), (strip_prefix_ci p v);
    try reflexivity; contradiction.
Qed.

(** X1: the format regex reads the URL without regard to case: two URLs
    with the same lower-case form are both accepted or both refused. *)
Theorem _is_valid_url_case_insensitive (u v : string) :
  lower_str u = lower_str v ->
  _is_valid_url u = _is_valid_url v.
Proof.
  intros H. rewrite !_is_valid_url_scheme_prefix. unfold scheme_prefix.
  now rewrite !(iprefix_lower _ u v H).
Qed.

(** X2: the format regex looks at the beginning only: a URL that is
    accepted stays accepted whatever is appended to it, and the three bare
    schemes [http://], [https://], [ftp://] are accepted with nothing
    after them. *)
Theorem _is_valid_url_prefix_only (u v : string) :
  _is_valid_url u = true ->
  _is_valid_url (u +:+ v) = true
  /\ _is_valid_url ("http://" +:+ v) = true
  /\ _is_valid_url ("https://" +:+ v) = true
  /\ _is_valid_url ("ftp://" +:+ v) = true.
Proof.
  rewrite !_is_valid_url_scheme_prefix. unfold scheme_prefix.
  intros H. split.
  - apply orb_true_iff in H as [H|H];
      [apply orb_true_iff in H as [H|H]|];
      rewrite (iprefix_append _ _ v H); now rewrite ?orb_true_r.
  - repeat split.
Qed.

(** X3: every URL [is_https] accepts passes the format regex, but not the
    other way round: the regex ignores case and [is_https] does not, so a
    URL written [HTTPS://...] passes the regex and is then treated as not
    HTTPS, and gets the no-certificate message without any connection. *)
Theorem is_https_stricter_than_regex (env : Env) (url rest : string)
    (tr : list event) :
  (is_https url = true -> _is_valid_url url = true)
  /\ _is_valid_url ("HTTPS://" +:+ rest) = true
  /\ is_https ("HTTPS://" +:+ rest) = false
  /\ check_ssl_certificate env ("HTTPS://" +:+ rest) tr
     = (Ok "No SSL Certificate for non-HTTPS URLs", tr).
Proof.
  split; [|repeat split].
  intros H. apply startswith_app in H as [r ->].
  rewrite _is_valid_url_scheme_prefix. reflexivity.
Qed.

End UrlChecks.

Lemma _is_valid_url_case_insensitive_witness :
  Trace.lower_str "HtTp://Example.COM" = Trace.lower_str "http://example.com"
  /\ _is_valid_url "HtTp://Example.COM" = _is_valid_url "http://example.com".
Proof.
  split; [reflexivity|].
  apply (_is_valid_url_case_insensitive "HtTp://Example.COM"
           "http://example.com").
  reflexivity.
Defined.

Lemma _is_valid_url_prefix_only_witness :
  _is_valid_url "ftp://" = true
  /\ _is_valid_url ("ftp://" +:+ "files.example.com/a b") = true.
Proof.
  split; [reflexivity|].
  apply (_is_valid_url_prefix_only "ftp://" "files.example.com/a b").
  reflexivity.
Defined.

Lemma is_https_stricter_than_regex_witness :
  is_https "https://example.com" = true
  /\ _is_valid_url "https://example.com" = true.
Proof.
  split; [reflexivity|].
  apply (proj1 (is_https_stricter_than_regex Runs.online
                  "https://example.com" "" [])).
  reflexivity.
Defined.

(** ** Further properties of the score *)

Lemma _seo_analysis_no_h1 title description keywords
    (headings : gmap string (list string)) alt_tags ratio load_time mobile
    internal_links external_links :
  headings !! "h1" = None ->
  _seo_analysis title description keywords headings alt_tags ratio load_time
    mobile internal_links external_links = Raise (KeyError "h1").
Proof.
  intros H. cbv beta delta [_seo_analysis getitem]. rewrite H. reflexivity.
Qed.

Lemma _seo_analysis_no_h2 title description keywords
    (headings : gmap string (list string)) alt_tags ratio load_time mobile
    internal_links external_links (h1 : list string) :
  headings !! "h1" = Some h1 ->
  headings !! "h2" = None ->
  _seo_analysis title description keywords headings alt_tags ratio load_time
    mobile internal_links external_links = Raise (KeyError "h2").
Proof.
  intros H1 H2. cbv beta delta [_seo_analysis getitem]. rewrite H1, H2.
  reflexivity.
Qed.

Section ScoreEdges.

Import Points.

Variables (title : option string) (description keywords : string).
Variables (alt_tags internal_links external_links : list string).
Variables (ratio : number) (load_time : float) (mobile : bool).

(** X4: [_seo_analysis] raises exactly when the headings dict lacks an
    entry it looks up, and then a [KeyError] naming it: [h1] when [h1] is
    missing, [h2] when [h1] is there and [h2] is missing. *)
Theorem _seo_analysis_raises_iff (headings : gmap string (list string))
    (e : exn) :
  _seo_analysis title description keywords headings alt_tags ratio load_time
    mobile internal_links external_links = Raise e
  <-> (e = KeyError "h1" /\ headings !! "h1" = None)
      \/ (e = KeyError "h2" /\ is_Some (headings !! "h1")
          /\ headings !! "h2" = None).
Proof.
  destruct (headings !! "h1") as [h1|] eqn:E1.
  - destruct (headings !! "h2") as [h2|] eqn:E2.
    + rewrite (_seo_analysis_sum _ _ _ _ _ _ _ _ _ _ _ _ E1 E2).
      split; [discriminate|].
      intros [[_ H]|(_ & _ & H)]; discriminate H.
    + rewrite (_seo_analysis_no_h2 _ _ _ _ _ _ _ _ _ _ _ E1 E2). split.
      * intros [= <-]. right. eauto.
      * intros [[_ H]|(-> & _ & _)]; [discriminate H|reflexivity].
  - rewrite (_seo_analysis_no_h1 _ _ _ _ _ _ _ _ _ _ E1). split.
    + intros [= <-]. left. eauto.
    + intros [[-> _]|(_ & [? H] & _)]; [reflexivity|discriminate H].
Qed.

(** X5: the score reads the headings dict only through the emptiness of
    its [h1] and [h2] lists, and the alt tags and the two link lists only
    through their emptiness: the texts, the number of entries and the
    levels [h3] to [h6] do not count. *)
Theorem _seo_analysis_reads_emptiness
    (headings headings' : gmap string (list string))
    (alt_tags' internal_links' external_links' : list string) :
  truthy <$> headings !! "h1" = truthy <$> headings' !! "h1" ->
  truthy <$> headings !! "h2" = truthy <$> headings' !! "h2" ->
  truthy alt_tags = truthy alt_tags' ->
  truthy internal_links = truthy internal_links' ->
  truthy external_links = truthy external_links' ->
  _seo_analysis title description keywords headings alt_tags ratio load_time
    mobile internal_links external_links
  = _seo_analysis title description keywords headings' alt_tags' ratio
      load_time mobile internal_links' external_links'.
Proof.
  intros H1 H2 Ha Hi He.
  destruct (headings !! "h1") as [a|] eqn:E1,
           (headings' !! "h1") as [a'|] eqn:E1'; try discriminate H1.
  - destruct (headings !! "h2") as [b|] eqn:E2,
             (headings' !! "h2") as [b'|] eqn:E2'; try discriminate H2.
    + rewrite (_seo_analysis_sum _ _ _ _ _ _ _ _ _ _ _ _ E1 E2),
        (_seo_analysis_sum _ _ _ _ _ _ _ _ _ _ _ _ E1' E2').
      injection H1 as H1. injection H2 as H2.
      unfold of_h1, of_h2, of_links, of_alt_tags.
      now rewrite H1, H2, Ha, Hi, He.
    + now rewrite (_seo_analysis_no_h2 _ _ _ _ _ _ _ _ _ _ _ E1 E2),
        (_seo_analysis_no_h2 _ _ _ _ _ _ _ _ _ _ _ E1' E2').
  - now rewrite (_seo_analysis_no_h1 _ _ _ _ _ _ _ _ _ _ E1),
      (_seo_analysis_no_h1 _ _ _ _ _ _ _ _ _ _ E1').
Qed.

End ScoreEdges.

Lemma _seo_analysis_reads_emptiness_witness :
  _seo_analysis (Some "Home") "" "" Sample.best_headings ["logo"] (PyInt 0)
    infinity false ["/a"] []
  = _seo_analysis (Some "Home") "" ""
      (<["h3" := ["More"]]> (<["h1" := ["One"; "Two"]]>
         (<["h2" := [""]]> ∅)))
      [""; "photo"] (PyInt 0) infinity false ["/b"; "/c"] [].
Proof.
  apply (_seo_analysis_reads_emptiness (Some "Home") "" "" ["logo"] ["/a"] []
           (PyInt 0) infinity false Sample.best_headings);
    reflexivity.
Defined.

(** ** Further properties of the extraction *)

Section Extraction.

Import Signals.

Variable env : Env.
Variable url : string.
Variable tr : list event.

(** A dict comes from a 200 response whose [meta] subscripts succeed and
    whose timing request returns a load time, and is the dict [page]
    describes. *)
Lemma extract_page_info_dict (info : PageInfo) (tr' : list event)
    (r : Response) :
  extract_page_info env url tr = (Ok (PageDict info), tr') ->
  http env (count_gets tr) url = HttpResponse r ->
  exists d k t,
    status_code r = 200
    /\ meta_content (html_parser env (text r)) "description" "No Description"
       = Ok d
    /\ meta_content (html_parser env (text r)) "keywords" "No Keywords"
       = Ok k
    /\ load_time (http env (S (count_gets tr)) url) = Ok t
    /\ info = page (html_parser env (text r)) (text r) d k t
    /\ tr' = tr ++ [HttpGet url 5; HtmlParse (text r); HttpGet url 5].
Proof.
  rewrite extract_page_info_eq. unfold extraction. intros Hrun Hresp.
  rewrite Hresp in Hrun.
  destruct (Z.eqb_spec (status_code r) 200) as [E|_]; [|discriminate Hrun].
  destruct (meta_content _ "description" _) as [d|]; [|discriminate Hrun].
  destruct (meta_content _ "keywords" _) as [k|]; [|discriminate Hrun].
  destruct (load_time _) as [t|]; [|discriminate Hrun].
  cbn [fst snd] in Hrun. injection Hrun as <- <-. eauto 12.
Qed.

Lemma filter_partition {A} (f : A -> bool) (l : list A) :
  List.filter f l ++ List.filter (fun x => negb (f x)) l ≡ₚ l.
Proof.
  induction l as [|x l IH]; [reflexivity|].
  cbn [List.filter]. destruct (f x); cbn [negb app].
  - now rewrite IH.
  - rewrite <- Permutation_middle. now rewrite IH.
Qed.

Lemma elem_of_filter {A} (f : A -> bool) (l : list A) (x : A) :
  x ∈ List.filter f l <-> x ∈ l /\ f x = true.
Proof. rewrite !list_elem_of_In. apply filter_In. Qed.

(** The [href]s are those of the anchors that have one. *)
Lemma elem_of_hrefs (soup : Soup) (h : string) :
  h ∈ hrefs soup
  <-> exists a, a ∈ soup_tags soup /\ tag_name a = "a"
                /\ tag_attrs a !! "href" = Some h.
Proof.
  unfold hrefs, Bs4.find_all. rewrite list_elem_of_omap.
  split.
  - intros (a & Ha & Hh). apply elem_of_filter in Ha as [Ha Hn].
    apply String.eqb_eq in Hn. eauto.
  - intros (a & Ha & Hn & Hh). exists a. split; [|exact Hh].
    apply elem_of_filter. split; [exact Ha|]. now apply String.eqb_eq.
Qed.

(** X6: in the dict of a page, the internal and the external links split
    the [href]s of the anchors: every internal link begins with a slash,
    no external link does, together they are the [href]s of the anchors
    that have one, each as often as it occurs, and anchors without [href]
    are skipped. *)
Theorem extract_page_info_links_partition (info : PageInfo)
    (tr' : list event) (r : Response) :
  extract_page_info env url tr = (Ok (PageDict info), tr') ->
  http env (count_gets tr) url = HttpResponse r ->
  Forall (fun h => startswith "/" h = true) (internal_links info)
  /\ Forall (fun h => startswith "/" h = false) (external_links info)
  /\ internal_links info ++ external_links info
     ≡ₚ hrefs (html_parser env (text r))
  /\ forall h,
       h ∈ internal_links info ++ external_links info
       <-> exists a, a ∈ soup_tags (html_parser env (text r))
                     /\ tag_name a = "a" /\ tag_attrs a !! "href" = Some h.
Proof.
  intros Hrun Hresp.
  destruct (extract_page_info_dict _ _ _ Hrun Hresp)
    as (d & k & t & _ & _ & _ & _ & -> & _).
  cbn [internal_links external_links page].
  split; [|split; [|split]].
  - apply Forall_forall. intros h Hh. now apply elem_of_filter in Hh.
  - apply Forall_forall. intros h Hh. apply elem_of_filter in Hh as [_ Hh].
    now apply negb_true_iff in Hh.
  - apply filter_partition.
  - intros h. rewrite filter_partition. apply elem_of_hrefs.
Qed.

(** X7: the headings of the dict have exactly the six keys [h1] to [h6],
    also for levels the page does not use, and each holds the stripped
    texts of the elements of that name in document order. *)
Theorem extract_page_info_headings_keys (info : PageInfo)
    (tr' : list event) (r : Response) (key : string) :
  extract_page_info env url tr = (Ok (PageDict info), tr') ->
  http env (count_gets tr) url = HttpResponse r ->
  headings info !! key
  = if bool_decide (key ∈ ["h1"; "h2"; "h3"; "h4"; "h5"; "h6"])
    then Some (List.map tag_get_text_strip
                 (List.filter (fun t => String.eqb (tag_name t) key)
                    (soup_tags (html_parser env (text r)))))
    else None.
Proof.
  intros Hrun Hresp.
  destruct (extract_page_info_dict _ _ _ Hrun Hresp)
    as (d & k & t & _ & _ & _ & _ & -> & _).
  cbn [headings page]. unfold page_headings.
  destruct (decide (key ∈ ["h1"; "h2"; "h3"; "h4"; "h5"; "h6"]))
    as [Hin|Hout].
  - rewrite bool_decide_true by exact Hin.
    rewrite !elem_of_cons, elem_of_nil in Hin.
    destruct Hin as [->|[->|[->|[->|[->|[->|[]]]]]]]; reflexivity.
  - rewrite bool_decide_false by exact Hout.
    rewrite !elem_of_cons, elem_of_nil in Hout.
    rewrite !lookup_insert_ne by (intros <-; tauto).
    apply lookup_empty.
Qed.

(** X8: the alt tags of the dict are the [alt] values of the images that
    carry the attribute, the empty value included; images without the
    attribute are skipped. *)
Theorem extract_page_info_alt_tags (info : PageInfo) (tr' : list event)
    (r : Response) (alt : string) :
  extract_page_info env url tr = (Ok (PageDict info), tr') ->
  http env (count_gets tr) url = HttpResponse r ->
  alt ∈ alt_tags info
  <-> exists img, img ∈ soup_tags (html_parser env (text r))
                  /\ tag_name img = "img"
                  /\ tag_attrs img !! "alt" = Some alt.
Proof.
  intros Hrun Hresp.
  destruct (extract_page_info_dict _ _ _ Hrun Hresp)
    as (d & k & t & _ & _ & _ & _ & -> & _).
  cbn [alt_tags page]. unfold alts, Bs4.find_all.
  rewrite list_elem_of_omap. split.
  - intros (a & Ha & Hh). apply elem_of_filter in Ha as [Ha Hn].
    apply String.eqb_eq in Hn. eauto.
  - intros (a & Ha & Hn & Hh). exists a. split; [|exact Hh].
    apply elem_of_filter. split; [exact Ha|]. now apply String.eqb_eq.
Qed.

(** X9: the mobile-friendly flag of the dict is true exactly when the page
    has a [meta] element named [viewport], whatever its [content]. *)
Theorem extract_page_info_mobile_friendly (info : PageInfo)
    (tr' : list event) (r : Response) :
  extract_page_info env url tr = (Ok (PageDict info), tr') ->
  http env (count_gets tr) url = HttpResponse r ->
  mobile_friendly info = true
  <-> exists m, m ∈ soup_tags (html_parser env (text r))
                /\ tag_name m = "meta"
                /\ tag_attrs m !! "name" = Some "viewport".
Proof.
  intros Hrun Hresp.
  destruct (extract_page_info_dict _ _ _ Hrun Hresp)
    as (d & k & t & _ & _ & _ & _ & -> & _).
  cbn [mobile_friendly page]. unfold _is_mobile_friendly, Bs4.find.
  destruct (List.find _ _) as [m|] eqn:E.
  - split; [intros _|reflexivity].
    apply find_some in E as [Hin Hm]. apply bool_decide_eq_true in Hm.
    apply list_elem_of_In, elem_of_filter in Hin as [Hin Hn].
    apply String.eqb_eq in Hn. eauto.
  - split; [discriminate|]. intros (m & Hin & Hn & Hv).
    assert (Hm : m ∈ Bs4.find_all (html_parser env (text r)) "meta").
    { apply elem_of_filter. split; [exact Hin|]. now apply String.eqb_eq. }
    apply list_elem_of_In in Hm.
    pose proof (find_none _ _ E m Hm) as Hf. cbv beta in Hf.
    apply bool_decide_eq_false in Hf. contradiction.
Qed.

End Extraction.

Lemma extract_page_info_shop :
  extract_page_info Gallery.shop Runs.url []
  = (Ok (PageDict Gallery.shop_info), Gallery.shop_trace).
Proof. vm_compute. reflexivity. Defined.

Lemma extract_page_info_links_partition_witness :
  extract_page_info Gallery.shop Runs.url []
  = (Ok (PageDict Gallery.shop_info), Gallery.shop_trace)
  /\ internal_links Gallery.shop_info = ["/about"; "/cart"]
  /\ external_links Gallery.shop_info = ["https://example.org/"]
  /\ Forall (fun h => startswith "/" h = true)
       (internal_links Gallery.shop_info)
  /\ internal_links Gallery.shop_info ++ external_links Gallery.shop_info
     ≡ₚ Signals.hrefs Gallery.shop_page.
Proof.
  split; [exact extract_page_info_shop|].
  split; [reflexivity|]. split; [reflexivity|].
  destruct (extract_page_info_links_partition Gallery.shop Runs.url []
              Gallery.shop_info Gallery.shop_trace Gallery.shop_response
              extract_page_info_shop eq_refl)
    as (Hin & _ & Hperm & _).
  split; [exact Hin|exact Hperm].
Defined.

Lemma extract_page_info_headings_keys_witness :
  extract_page_info Gallery.shop Runs.url []
  = (Ok (PageDict Gallery.shop_info), Gallery.shop_trace)
  /\ headings Gallery.shop_info !! "h3" = Some ["Hours"]
  /\ headings Gallery.shop_info !! "h6" = Some []
  /\ headings Gallery.shop_info !! "h7" = None.
Proof.
  split; [exact extract_page_info_shop|].
  split; [|split].
  - apply (extract_page_info_headings_keys Gallery.shop Runs.url []
             Gallery.shop_info Gallery.shop_trace Gallery.shop_response "h3"
             extract_page_info_shop eq_refl).
  - apply (extract_page_info_headings_keys Gallery.shop Runs.url []
             Gallery.shop_info Gallery.shop_trace Gallery.shop_response "h6"
             extract_page_info_shop eq_refl).
  - apply (extract_page_info_headings_keys Gallery.shop Runs.url []
             Gallery.shop_info Gallery.shop_trace Gallery.shop_response "h7"
             extract_page_info_shop eq_refl).
Defined.

Lemma extract_page_info_alt_tags_witness :
  extract_page_info Gallery.shop Runs.url []
  = (Ok (PageDict Gallery.shop_info), Gallery.shop_trace)
  /\ alt_tags Gallery.shop_info = [""]
  /\ ("" ∈ alt_tags Gallery.shop_info
      <-> exists img, img ∈ soup_tags Gallery.shop_page
                      /\ tag_name img = "img"
                      /\ tag_attrs img !! "alt" = Some "").
Proof.
  split; [exact extract_page_info_shop|]. split; [reflexivity|].
  apply (extract_page_info_alt_tags Gallery.shop Runs.url []
           Gallery.shop_info Gallery.shop_trace Gallery.shop_response ""
           extract_page_info_shop eq_refl).
Defined.

Lemma extract_page_info_mobile_friendly_witness :
  extract_page_info Gallery.shop Runs.url []
  = (Ok (PageDict Gallery.shop_info), Gallery.shop_trace)
  /\ mobile_friendly Gallery.shop_info = true
  /\ (mobile_friendly Gallery.shop_info = true
      <-> exists m, m ∈ soup_tags Gallery.shop_page
                    /\ tag_name m = "meta"
                    /\ tag_attrs m !! "name" = Some "viewport").
Proof.
  split; [exact extract_page_info_shop|]. split; [reflexivity|].
  apply (extract_page_info_mobile_friendly Gallery.shop Runs.url []
           Gallery.shop_info Gallery.shop_trace Gallery.shop_response
           extract_page_info_shop eq_refl).
Defined.

(** ** Failures and defaults of the extraction *)

Section ExtractionEdges.

Import Signals Points.

Variable env : Env.
Variable url : string.
Variable tr : list event.

(** X10: [extract_page_info] raises in three cases only, where
    [requests.get] returns, raises an exception of [requests] or lets
    another exception through, and the parser returns: its first call of
    [requests.get] lets an exception through that is no
    [RequestException], which the three [except] clauses of
    [get_status_code] do not catch; the page is a 200 response whose first
    description or keywords [meta] element has no [content] attribute
    ([KeyError('content')]); or the page is such a response, the [meta]
    subscripts succeed and the timing call lets through an exception that
    is no [RequestException]. Every exception of [requests] and every
    other status is returned, not raised. *)
Theorem extract_page_info_raises_iff (e : exn) :
  fst (extract_page_info env url tr) = Raise e
  <-> (exists msg,
         http env (count_gets tr) url = HttpRaisesOther msg
         /\ e = Exception msg)
      \/ exists r,
           http env (count_gets tr) url = HttpResponse r
           /\ status_code r = 200
           /\ ((e = KeyError "content"
                /\ exists m,
                     (Bs4.find (html_parser env (text r)) "meta" "name"
                        "description" = Some m
                      \/ Bs4.find (html_parser env (text r)) "meta" "name"
                           "keywords" = Some m)
                     /\ tag_attrs m !! "content" = None)
               \/ (exists d k msg,
                     meta_content (html_parser env (text r)) "description"
                       "No Description" = Ok d
                     /\ meta_content (html_parser env (text r)) "keywords"
                          "No Keywords" = Ok k
                     /\ http env (S (count_gets tr)) url
                        = HttpRaisesOther msg
                     /\ e = Exception msg)).
Proof.
  rewrite extract_page_info_eq. cbn [fst]. unfold extraction.
  destruct (http env (count_gets tr) url) as [r|e'|msg] eqn:Ho.
  - destruct (Z.eqb_spec (status_code r) 200) as [E|Hne].
    + unfold meta_content, getitem.
      destruct (Bs4.find (html_parser env (text r)) "meta" "name"
                  "description") as [md|] eqn:Ed;
        [destruct (tag_attrs md !! "content") eqn:Cd|];
        (destruct (Bs4.find (html_parser env (text r)) "meta" "name"
                     "keywords") as [mk|] eqn:Ek;
         [destruct (tag_attrs mk !! "content") eqn:Ck|]);
        cbn [fst];
        try (destruct (http env (S (count_gets tr)) url) as [r2|e2|msg2]
               eqn:Ho2; cbn [load_time]);
        (split; [intros Hf|intros Hb]);
        try discriminate Hf.
      all: try (injection Hf as <-; right; exists r;
                split; [reflexivity|]; split; [exact E|];
                first [ left; split; [reflexivity|];
                        first [ exists md; now eauto | exists mk; now eauto ]
                      | right; do 3 eexists;
                        rewrite ?Ed, ?Ek; cbv iota; rewrite ?Cd, ?Ck;
                        now eauto ]).
      all: destruct Hb as [(msg' & H & _)|(r' & H & _ & Hb)];
        [discriminate H|]; injection H as <-.
      all: destruct Hb as [(-> & m & H & Hc)
                          |(d & k & msg' & Hd & Hk & H & ->)].
      all: try reflexivity.
      all: try (destruct H as [H|H]; rewrite ?Ed, ?Ek in H;
                first [ discriminate H | injection H as <-; congruence ]).
      all: try discriminate H.
      all: try (injection H as <-; reflexivity).
      all: try rewrite Ed in Hd; try rewrite Ek in Hk; cbv iota in Hd, Hk;
        try rewrite Cd in Hd; try rewrite Ck in Hk;
        first [discriminate Hd|discriminate Hk].
    + cbn [fst]. split; [discriminate|].
      intros [(msg' & H & _)|(r' & [= <-] & H200 & _)];
        [discriminate H|contradiction].
  - cbn [fst]. split; [discriminate|].
    intros [(msg' & H & _)|(r' & H & _)]; discriminate H.
  - cbn [fst]. split.
    + intros [= <-]. left. eauto.
    + intros [(msg' & [= <-] & ->)|(r' & H & _)];
        [reflexivity|discriminate H].
Qed.

Lemma of_h1_nonneg (h : list string) : 0 <= of_h1 h.
Proof. unfold of_h1. destruct (truthy h); lia. Qed.

Lemma of_h2_nonneg (h : list string) : 0 <= of_h2 h.
Proof. unfold of_h2. destruct (truthy h); lia. Qed.

Lemma of_links_nonneg (l : list string) : 0 <= of_links l.
Proof. unfold of_links. destruct (truthy l); lia. Qed.

Lemma of_alt_tags_nonneg (l : list string) : 0 <= of_alt_tags l.
Proof. unfold of_alt_tags. destruct (truthy l); lia. Qed.

Lemma of_ratio_nonneg (n : number) : 0 <= of_ratio n.
Proof. unfold of_ratio. destruct (gt_tenth n); lia. Qed.

Lemma of_load_time_nonneg (t : float) : 0 <= of_load_time t.
Proof.
  unfold of_load_time. destruct (lt_int t 3), (lt_int t 5); lia.
Qed.

Lemma of_mobile_nonneg (b : bool) : 0 <= of_mobile b.
Proof. unfold of_mobile. destruct (truthy b); lia. Qed.

(** X11: a 200 page with no title element and no description or keywords
    [meta] element gets the three placeholders in its dict (the timing
    call returning or raising an exception of [requests], so that the dict
    is returned), and the placeholders earn points: the score [main]
    computes from that dict is at least 25 (10 for the title, 5 for the
    description, 10 for the keywords), even for an empty body. *)
Theorem extract_page_info_placeholders_score (r : Response) :
  http env (count_gets tr) url = HttpResponse r ->
  status_code r = 200 ->
  Bs4.title (html_parser env (text r)) = None ->
  Bs4.find (html_parser env (text r)) "meta" "name" "description" = None ->
  Bs4.find (html_parser env (text r)) "meta" "name" "keywords" = None ->
  caught (http env (S (count_gets tr)) url) = true ->
  exists info tr' s,
    extract_page_info env url tr = (Ok (PageDict info), tr')
    /\ title info = Some "No Title"
    /\ description info = "No Description"
    /\ keywords info = "No Keywords"
    /\ score info = Ok s
    /\ 25 <= s.
Proof.
  intros Ho H200 Ht Hd Hk Hc.
  destruct (caught_load_time _ Hc) as [t Hl].
  rewrite extract_page_info_eq. unfold extraction, meta_content.
  rewrite Ho, H200, Hd, Hk, Hl. cbn [Z.eqb Pos.eqb fst snd].
  do 3 eexists. split; [reflexivity|].
  unfold score, page, page_title. rewrite Ht.
  cbn [title description keywords headings alt_tags text_to_html_ratio
       page_load_time mobile_friendly internal_links external_links].
  do 3 (split; [reflexivity|]).
  rewrite (_seo_analysis_sum _ _ _ _ _ _ _ _ _ _ _ _
             (page_headings_h1 _) (page_headings_h2 _)).
  split; [reflexivity|].
  change (of_title (Some "No Title")) with 10.
  change (of_description "No Description") with 5.
  change (of_keywords "No Keywords") with 10.
  pose proof (of_h1_nonneg (heading_texts (html_parser env (text r)) "h1")).
  pose proof (of_h2_nonneg (heading_texts (html_parser env (text r)) "h2")).
  pose proof (of_links_nonneg
                (List.filter (startswith "/")
                   (hrefs (html_parser env (text r))))).
  pose proof (of_links_nonneg
                (List.filter (fun h => negb (startswith "/" h))
                   (hrefs (html_parser env (text r))))).
  pose proof (of_alt_tags_nonneg (alts (html_parser env (text r)))).
  pose proof (of_ratio_nonneg
                (ratio (len (soup_get_text (html_parser env (text r))))
                   (len (text r)))).
  pose proof (of_load_time_nonneg t).
  pose proof (of_mobile_nonneg
                (_is_mobile_friendly (html_parser env (text r)))).
  lia.
Qed.

(** X12: on a 200 page whose [meta] subscripts succeed,
    [extract_page_info] calls [requests.get] a second time after the
    parse, only to time it. When that call returns, the load time of the
    dict is the elapsed time of its response. When it raises an exception
    of [requests], the load time is infinity: the extraction still returns
    the dict and the load-time rule awards nothing. An exception that is no
    [RequestException] passes the [except] clause of line 154, and
    [extract_page_info] raises it in place of returning the dict. *)
Theorem extract_page_info_second_request (r : Response) (d k : string) :
  http env (count_gets tr) url = HttpResponse r ->
  status_code r = 200 ->
  meta_content (html_parser env (text r)) "description" "No Description"
    = Ok d ->
  meta_content (html_parser env (text r)) "keywords" "No Keywords" = Ok k ->
  snd (extract_page_info env url tr)
  = tr ++ [HttpGet url 5; HtmlParse (text r); HttpGet url 5]
  /\ match http env (S (count_gets tr)) url with
     | HttpResponse r2 =>
         exists info,
           fst (extract_page_info env url tr) = Ok (PageDict info)
           /\ page_load_time info = elapsed r2
     | HttpRaises _ =>
         exists info,
           fst (extract_page_info env url tr) = Ok (PageDict info)
           /\ page_load_time info = infinity
           /\ lt_int (page_load_time info) 3 = false
           /\ lt_int (page_load_time info) 5 = false
     | HttpRaisesOther msg =>
         fst (extract_page_info env url tr) = Raise (Exception msg)
     end.
Proof.
  intros Ho H200 Hd Hk.
  rewrite extract_page_info_eq. unfold extraction.
  rewrite Ho, H200, Hd, Hk. cbn [Z.eqb Pos.eqb fst snd].
  split; [reflexivity|].
  destruct (http env (S (count_gets tr)) url) as [r2|e2|msg];
    cbn [load_time].
  - eexists. split; reflexivity.
  - eexists. do 3 (split; [reflexivity|]). reflexivity.
  - reflexivity.
Qed.

End ExtractionEdges.

Lemma extract_page_info_placeholders_score_witness :
  http Gallery.blank 0 Runs.url = HttpResponse Gallery.empty_response
  /\ exists info tr' s,
       extract_page_info Gallery.blank Runs.url []
       = (Ok (PageDict info), tr')
       /\ title info = Some "No Title"
       /\ description info = "No Description"
       /\ keywords info = "No Keywords"
       /\ Signals.score info = Ok s
       /\ 25 <= s.
Proof.
  split; [reflexivity|].
  apply (extract_page_info_placeholders_score Gallery.blank Runs.url []
           Gallery.empty_response);
    reflexivity.
Defined.

Lemma extract_page_info_second_request_witness :
  http Runs.flaky 0 Runs.url = Sample.ok_response Runs.body
  /\ http Runs.flaky 1 Runs.url = HttpRaises (Timeout "timed out")
  /\ snd (extract_page_info Runs.flaky Runs.url [])
     = [HttpGet Runs.url 5; HtmlParse Runs.body; HttpGet Runs.url 5]
  /\ exists info,
       fst (extract_page_info Runs.flaky Runs.url []) = Ok (PageDict info)
       /\ page_load_time info = infinity.
Proof.
  split; [reflexivity|]. split; [reflexivity|].
  destruct (extract_page_info_second_request Runs.flaky Runs.url []
              {| status_code := 200; text := Runs.body; elapsed := 0.5 |}
              "No Description" "No Keywords"
              eq_refl eq_refl eq_refl eq_refl)
    as (Htrace & info & Hrun & Htime & _).
  split; [exact Htrace|].
  exists info. split; [exact Hrun|exact Htime].
Defined.

(** ** Further properties of the run *)

Section TraceFacts.

Import Trace.









End TraceFacts.

Section MainRun.

Import Signals Report Trace.

Variable env : Env.
Variable url : string.
Variable tr : list event.





End MainRun.

Section MainReport.

Import Signals Report Trace.

Variable env : Env.
Variable url : string.
Variable tr : list event.



End MainReport.



(** ** The certificate check and the log *)

Section Certificate.

Import Signals Report Trace.

Variable env : Env.

Lemma remove_all_absent (old s : string) :
  contains old s = false -> remove_all old 0 s = s.
Proof.
  induction s as [|c s IH]; [reflexivity|].
  cbn [contains remove_all]. intros H.
  apply orb_false_iff in H as [Hs Hc].
  rewrite Hs, andb_false_r. now rewrite IH.
Qed.

(** X17: for an [https://] URL with no second [https://] in it,
    [check_ssl_certificate] connects to port 443 of everything that
    follows the prefix, taken as the host name, a path or a port number
    included; it returns the certificate, or the handshake's failure as
    the string [SSL Certificate Error: ...], and never raises. *)
Theorem check_ssl_certificate_host (rest : string) (tr : list event) :
  contains "https://" rest = false ->
  check_ssl_certificate env ("https://" +:+ rest) tr
  = (Ok match tls env rest 443 with
        | Certificate pem => pem
        | TlsRaises msg => "SSL Certificate Error: " +:+ msg
        end,
     tr ++ [TlsConnect rest 443]).
Proof.
  intros H. rewrite check_ssl_certificate_eq.
  change (is_https ("https://" +:+ rest)) with true. cbv beta iota zeta.
  change (remove_all "https://" 0 ("https://" +:+ rest))
    with (remove_all "https://" 0 rest).
  now rewrite (remove_all_absent _ _ H).
Qed.

(** [log_results] writes its first four lines whatever the page info
    is; given the error string instead of the dict it then raises
    [TypeError], leaving those four lines in the log, and given the dict
    it writes the ten lines on the fields and returns. *)
Lemma log_results_string_or_dict (url : string) (st : status)
    (https_check : bool) (ssl : string) (page_info : page_result)
    (tr : list event) :
  let head := ["URL: " +:+ url;
               "Status Code: " +:+ str_status st;
               "HTTPS Check: " +:+ yes_no https_check;
               "SSL Certificate: " +:+ ssl] in
  log_results env url st https_check ssl page_info tr
  = match page_info with
    | PageStr _ =>
        (Raise (TypeError "string indices must be integers, not 'str'"),
         tr ++ List.map LogInfo head)
    | PageDict info =>
        (Ok tt, tr ++ List.map LogInfo (head ++ field_lines env info))
    end.
Proof.
  intros head. subst head. unfold log_results.
  destruct page_info as [info|msg];
    cbv beta iota zeta delta [bind logging_info emit subscript ret raise];
    unfold field_lines; cbn [List.map app]; rewrite <- !app_assoc;
    reflexivity.
Qed.

(** X18: the title of the dict is the [.string] of the first title
    element, which is [None] when that element holds markup, and the
    placeholder [No Title] when there is no title element. The score
    prefers the page without a title: a dict whose title is [None] scores
    10 less than the same dict with the placeholder. (The dict is returned
    when the timing call returns or raises an exception of [requests].) *)
Theorem extract_page_info_title_none (url : string) (tr : list event)
    (r : Response) (d k : string) (t : Tag) :
  http env (count_gets tr) url = HttpResponse r ->
  status_code r = 200 ->
  meta_content (html_parser env (text r)) "description" "No Description"
    = Ok d ->
  meta_content (html_parser env (text r)) "keywords" "No Keywords" = Ok k ->
  Bs4.title (html_parser env (text r)) = Some t ->
  tag_string t = None ->
  caught (http env (S (count_gets tr)) url) = true ->
  exists info tr' s,
    extract_page_info env url tr = (Ok (PageDict info), tr')
    /\ title info = None
    /\ score info = Ok s
    /\ score (Variants.with_title info (Some "No Title")) = Ok (s + 10).
Proof.
  intros Ho H200 Hd Hk Ht Hs Hc.
  destruct (caught_load_time _ Hc) as [lt Hl].
  rewrite extract_page_info_eq. unfold extraction.
  rewrite Ho, H200, Hd, Hk, Hl. cbn [Z.eqb Pos.eqb fst snd].
  do 3 eexists. split; [reflexivity|].
  unfold score, Variants.with_title, page, page_title. rewrite Ht, Hs.
  cbn [title description keywords headings alt_tags text_to_html_ratio
       page_load_time mobile_friendly internal_links external_links].
  split; [reflexivity|].
  rewrite !(_seo_analysis_sum _ _ _ _ _ _ _ _ _ _ _ _
              (page_headings_h1 _) (page_headings_h2 _)).
  split; [reflexivity|]. f_equal.
  change (Points.of_title None) with 0.
  change (Points.of_title (Some "No Title")) with 10. lia.
Qed.

End Certificate.

Lemma check_ssl_certificate_host_witness :
  Trace.contains "https://" "example.com:8443/shop" = false
  /\ check_ssl_certificate Runs.online "https://example.com:8443/shop" []
     = (Ok "SSL Certificate Error: handshake failure",
        [TlsConnect "example.com:8443/shop" 443]).
Proof.
  split; [reflexivity|].
  apply (check_ssl_certificate_host Runs.online "example.com:8443/shop" []).
  reflexivity.
Defined.

Lemma extract_page_info_title_none_witness :
  http Variants.nested_title 0 Runs.url = HttpResponse Gallery.shop_response
  /\ Bs4.title Variants.nested_title_page
     = Some {| tag_name := "title"; tag_attrs := ∅; tag_string := None;
               tag_get_text_strip := "Shop" |}
  /\ exists info tr' s,
       extract_page_info Variants.nested_title Runs.url []
       = (Ok (PageDict info), tr')
       /\ title info = None
       /\ Signals.score info = Ok s
       /\ Signals.score (Variants.with_title info (Some "No Title"))
          = Ok (s + 10).
Proof.
  split; [reflexivity|]. split; [reflexivity|].
  apply (extract_page_info_title_none Variants.nested_title Runs.url []
           Gallery.shop_response "No Description" "No Keywords"
           {| tag_name := "title"; tag_attrs := ∅; tag_string := None;
              tag_get_text_strip := "Shop" |});
    reflexivity.
Defined.
